(** * Optimizely CMS tools: request construction and response normalisation

    A shallow embedding of the three adapters of
    [src/tools/cms-content-types.ts] and [src/tools/cms-content-manifest.ts]
    ([cmsContentTypes], [cmsContentDelivery], [cmsContentManifest]).

    JavaScript strings are represented by the bytes of their UTF-8 encoding
    (Rocq's [string]).  ['/'], ['?'], ['&'] and the other ASCII characters
    are single bytes that never occur inside a multi-byte sequence, so
    [endsWith], [slice], [includes], concatenation and [join] act on the
    bytes as they act on the characters.  A string with an unpaired
    surrogate has no UTF-8 encoding and is outside the model
    ([encodeURIComponent] raises [URIError] on it). *)

From Stdlib Require Import ZArith Ascii String DecimalString List Lia Permutation.
From stdpp Require Import base option list gmap strings.

Local Open Scope Z_scope.

(** ** Strings *)

Module Str.

(** [s.endsWith(String c "")] *)
Fixpoint endsWithChar (c : ascii) (s : string) : bool :=
  match s with
  | EmptyString => false
  | String a EmptyString => Ascii.eqb a c
  | String _ r => endsWithChar c r
  end.

(** [s.slice(0, -1)]: all but the last character; the empty string stays
    empty. *)
Fixpoint dropLast (s : string) : string :=
  match s with
  | EmptyString => EmptyString
  | String _ EmptyString => EmptyString
  | String a r => String a (dropLast r)
  end.

(** [s.includes(needle)] *)
Fixpoint includes (needle s : string) : bool :=
  String.prefix needle s ||
  match s with
  | EmptyString => false
  | String _ r => includes needle r
  end.

(** Number of occurrences of the character [c]. *)
Fixpoint count (c : ascii) (s : string) : nat :=
  match s with
  | EmptyString => O
  | String a r => ((if Ascii.eqb a c then 1 else 0) + count c r)%nat
  end.

(** Every character satisfies [P]. *)
Fixpoint all (P : ascii -> bool) (s : string) : bool :=
  match s with
  | EmptyString => true
  | String a r => P a && all P r
  end.

Definition zeros (n : nat) : string :=
  string_of_list_ascii (List.repeat "0"%char n).

End Str.

(** ** Numbers

    The only number the adapters read is [top].  The code observes it twice:
    by truthiness ([if (top)]) and by conversion to a string in a template
    literal.  A finite non-zero number is kept in the form ECMA-262 uses to
    define [Number::toString]: its sign, the digits [s] of its shortest
    decimal representation and the exponent [n], the value being
    [s * 10 ^ (n - k)] with [k] the number of digits of [s]. *)

Inductive JsNumber :=
| NaN
| Infinity (negative : bool)
| Zero (negative : bool)
| Finite (negative : bool) (s : positive) (n : Z).

(** ECMA-262 [ToBoolean] on a number. *)
Definition numberToBoolean (x : JsNumber) : bool :=
  match x with
  | NaN | Zero _ => false
  | Infinity _ | Finite _ _ _ => true
  end.

Definition digitsOfPos (p : positive) : string :=
  NilEmpty.string_of_uint (Pos.to_uint p).

Definition digitsOfN (e : N) : string :=
  NilZero.string_of_uint (N.to_uint e).

(** ECMA-262 [Number::toString(x, 10)], steps 5 to 11 on [s], [n]. *)
Definition finiteToString (s : positive) (n : Z) : string :=
  let ds := digitsOfPos s in
  let k := Z.of_nat (String.length ds) in
  if (-5 <=? n) && (n <=? 21) then
    if k <=? n then ds +:+ Str.zeros (Z.to_nat (n - k))
    else if 0 <? n then
      String.substring 0 (Z.to_nat n) ds +:+ "." +:+
      String.substring (Z.to_nat n) (Z.to_nat (k - n)) ds
    else "0." +:+ Str.zeros (Z.to_nat (- n)) +:+ ds
  else
    let c := if 0 <=? n - 1 then "+" else "-" in
    let e := digitsOfN (Z.to_N (Z.abs (n - 1))) in
    if k =? 1 then ds +:+ "e" +:+ c +:+ e
    else String.substring 0 1 ds +:+ "." +:+
         String.substring 1 (Z.to_nat (k - 1)) ds +:+ "e" +:+ c +:+ e.

Definition numberToString (x : JsNumber) : string :=
  match x with
  | NaN => "NaN"
  | Zero _ => "0"
  | Infinity neg => (if neg then "-" else "") +:+ "Infinity"
  | Finite neg s n => (if neg then "-" else "") +:+ finiteToString s n
  end.

(** [stripZeros fuel p e] moves the trailing zeros of the numeral [p] into
    the exponent [e]. *)
Fixpoint stripZeros (fuel : nat) (p : positive) (e : Z) : positive * Z :=
  match fuel with
  | O => (p, e)
  | S f =>
      if (Z.pos p mod 10 =? 0) then stripZeros f (Z.to_pos (Z.pos p / 10)) (e + 1)
      else (p, e)
  end.

(** The integer [z] as a number: [numberOfZ 10] is [Finite false 1 2]. *)
Definition numberOfZ (z : Z) : JsNumber :=
  match z with
  | Z0 => Zero false
  | Zpos p | Zneg p =>
      let '(s, e) := stripZeros (Pos.to_nat (Pos.size p)) p 0 in
      Finite (Z.ltb z 0) s (Z.of_nat (String.length (digitsOfPos s)) + e)
  end.

(** ** [encodeURIComponent]

    Characters left alone: [A-Z a-z 0-9 - _ . ! ~ * ' ( )].  Every other
    byte of the UTF-8 encoding becomes [%XX] with upper-case hexadecimal
    digits. *)

Definition uriUnreserved (c : ascii) : bool :=
  let n := N_of_ascii c in
  ((65 <=? n) && (n <=? 90) || (97 <=? n) && (n <=? 122) ||
   (48 <=? n) && (n <=? 57))%N ||
  Str.includes (String c "") "-_.!~*'()".

Definition hexDigit (n : N) : ascii :=
  (if n <? 10 then ascii_of_N (48 + n) else ascii_of_N (55 + n))%N.

Definition percentEncode (c : ascii) : string :=
  let n := N_of_ascii c in
  String "%" (String (hexDigit (n / 16)) (String (hexDigit (n mod 16)) ""))%N.

Fixpoint encodeURIComponent (s : string) : string :=
  match s with
  | EmptyString => EmptyString
  | String c r =>
      (if uriUnreserved c then String c "" else percentEncode c)
      +:+ encodeURIComponent r
  end.

(** ** Optional string parameters *)

(** [ToBoolean] of a value of type [string | undefined]. *)
Definition truthy (o : option string) : bool :=
  match o with
  | Some s => negb (String.eqb s "")
  | None => false
  end.

(** The value inside a template literal. *)
Definition tpl (o : option string) : string :=
  match o with
  | Some s => s
  | None => "undefined"
  end.

(** The first lines of each adapter:
    [cmsUrl.endsWith('/') ? cmsUrl.slice(0, -1) : cmsUrl]. *)
Definition baseUrlOf (cmsUrl : string) : string :=
  if Str.endsWithChar "/" cmsUrl then Str.dropLast cmsUrl else cmsUrl.

(** ** The platform: [fetch], [Response], [JSON.parse]

    What an adapter cannot decide itself is supplied by the platform: the
    answer of the network to a request, the JSON parser, and the message of
    the [TypeError] that the Fetch standard prescribes for reading a body
    twice. *)

(** A thrown value, as far as the adapters look at it:
    [error instanceof Error ? error.message : String(error)]. *)
Inductive Thrown :=
| ErrorObject (message : string)
| NonError (shown : string).

Definition messageOf (e : Thrown) : string :=
  match e with
  | ErrorObject m => m
  | NonError s => s
  end.

(** A response body (Fetch standard, "Body mixin"): no body at all, a
    stream that delivers [text], or a stream that fails with [e] while it
    is read. *)
Inductive Body :=
| NullBody
| Stream (text : string)
| BrokenStream (e : Thrown).

Module Response.
(** [headers] is the sequence [response.headers.forEach] visits: names in
    lower case, one pair per visit. *)
Record t := mk {
  status : Z;
  statusText : string;
  headers : list (string * string);
  body : Body
}.

(** Fetch standard: [ok] is true iff the status is in the range 200 to
    299, inclusive. *)
Definition ok (r : t) : bool := (200 <=? status r) && (status r <=? 299).

(** [response.headers.get(name)], [None] for [null]. *)
Definition get (name : string) (r : t) : option string :=
  snd <$> List.find (fun kv => String.eqb (fst kv) name) (headers r).
End Response.

Module Request.
(** The arguments of [fetch(fullUrl, { method, headers })]; [headers]
    lists the properties of the header object in insertion order. *)
Record t := mk {
  url : string;
  method : string;
  headers : list (string * string)
}.
End Request.

Inductive FetchResult :=
| Responds (r : Response.t)
| Rejects (e : Thrown).

Class Platform := {
  Json : Type;
  (** [JSON.parse]: the value, or the message of the [SyntaxError] *)
  JSON_parse : string -> Json + string;
  fetch : Request.t -> FetchResult;
  (** message of the [TypeError] for a body that was already read *)
  bodyUnusable : string
}.

(** ** Effects: completions and the state of one invocation *)

Record World := {
  (** the requests handed to [fetch], oldest first *)
  fetched : list Request.t;
  (** the [bodyUsed] flag of the response of this invocation *)
  bodyUsed : bool
}.

Definition initialWorld : World := {| fetched := []; bodyUsed := false |}.

Inductive Completion (A : Type) :=
| Normal (a : A)
| Abrupt (e : Thrown).
Arguments Normal {A} a.
Arguments Abrupt {A} e.

Definition Js (A : Type) : Type := World -> Completion A * World.

Definition ret {A} (a : A) : Js A := fun w => (Normal a, w).
Definition throw {A} (e : Thrown) : Js A := fun w => (Abrupt e, w).
Definition bind {A B} (m : Js A) (k : A -> Js B) : Js B :=
  fun w =>
    match m w with
    | (Normal a, w') => k a w'
    | (Abrupt e, w') => (Abrupt e, w')
    end.
Definition tryCatch {A} (m : Js A) (handler : Thrown -> Js A) : Js A :=
  fun w =>
    match m w with
    | (Normal a, w') => (Normal a, w')
    | (Abrupt e, w') => handler e w'
    end.

Declare Scope js_scope.
Delimit Scope js_scope with js.
Notation "'let*' x ':=' m 'in' k" := (bind m (fun x => k))
  (at level 10, x name, m at level 100, k at level 200) : js_scope.

Definition run {A} (m : Js A) : Completion A * World := m initialWorld.

(** The decoded body, [responseBody: any]: what [response.json()] gave or
    what [response.text()] gave. *)
Inductive Decoded {J : Type} :=
| ParsedJson (v : J)
| RawText (s : string).
Arguments Decoded J : clear implicits.

Module Envelope.
(** The object an adapter returns.  [None] is a property the object
    literal does not have. *)
Record t {J : Type} := mk {
  success : bool;
  status : Z;
  statusText : string;
  data : option (Decoded J);
  error : option (Decoded J);
  url : string;
  headers : option (gmap string string)
}.
Arguments t J : clear implicits.
End Envelope.

Section Exchange.
Context {platform : Platform}.
Local Open Scope js_scope.

(** [await fetch(fullUrl, { method: "GET", headers })] *)
Definition fetchCall (req : Request.t) : Js Response.t :=
  fun w =>
    (match fetch req with
     | Responds r => Normal r
     | Rejects e => Abrupt e
     end,
     {| fetched := fetched w ++ [req]; bodyUsed := false |}).

(** Fetch standard, "consume body": a body that is not null and was read
    before is unusable, and the promise rejects with a [TypeError];
    otherwise the stream is read to its end, which marks it as used. *)
Definition consumeBody (r : Response.t) : Js string :=
  fun w =>
    match Response.body r with
    | NullBody => (Normal "", w)
    | Stream s =>
        if bodyUsed w then (Abrupt (ErrorObject bodyUnusable), w)
        else (Normal s, {| fetched := fetched w; bodyUsed := true |})
    | BrokenStream e =>
        if bodyUsed w then (Abrupt (ErrorObject bodyUnusable), w)
        else (Abrupt e, {| fetched := fetched w; bodyUsed := true |})
    end.

(** [await response.text()] *)
Definition text (r : Response.t) : Js string := consumeBody r.

(** [await response.json()] *)
Definition json (r : Response.t) : Js Json :=
  let* s := consumeBody r in
  match JSON_parse s with
  | inl v => ret v
  | inr m => throw (ErrorObject m)
  end.

(** [o[key] = value] on an object created by [{}], with strings as
    values.  The assignment creates or overwrites an own property, except
    for the key [__proto__]: there it runs the setter that
    [Object.prototype] has for that name, which ignores a string, and the
    object gets no property. *)
Definition assignProperty (key value : string) (o : gmap string string)
  : gmap string string :=
  if String.eqb key "__proto__" then o else <[key := value]> o.

(** [response.headers.forEach((value, key) => { responseHeaders[key] = value; })]
    on [responseHeaders = {}]. *)
Definition collectHeaders (hs : list (string * string)) : gmap string string :=
  fold_left (fun m kv => assignProperty (fst kv) (snd kv) m) hs ∅.

(** [contentType && contentType.includes("application/json")] on
    [contentType = response.headers.get("content-type")] *)
Definition declaresJson (response : Response.t) : bool :=
  let contentType := Response.get "content-type" response in
  truthy contentType && Str.includes "application/json" (tpl contentType).

(** The [let responseBody] block. *)
Definition decodeBody (response : Response.t) : Js (Decoded Json) :=
  if declaresJson response then
    tryCatch
      (let* v := json response in ret (ParsedJson v))
      (fun _ => let* s := text response in ret (RawText s))
  else
    let* s := text response in ret (RawText s).

(** The statements of the [try] block after the request headers are
    assembled; the three adapters have them in the same words. *)
Definition exchange (fullUrl : string) (headers : list (string * string))
  : Js (Envelope.t Json) :=
  let* response := fetchCall {| Request.url := fullUrl;
                                Request.method := "GET";
                                Request.headers := headers |} in
  let responseHeaders := collectHeaders (Response.headers response) in
  let* responseBody := decodeBody response in
  if negb (Response.ok response) then
    ret {| Envelope.success := false;
           Envelope.status := Response.status response;
           Envelope.statusText := Response.statusText response;
           Envelope.data := None;
           Envelope.error := Some responseBody;
           Envelope.url := fullUrl;
           Envelope.headers := None |}
  else
    ret {| Envelope.success := true;
           Envelope.status := Response.status response;
           Envelope.statusText := Response.statusText response;
           Envelope.data := Some responseBody;
           Envelope.error := None;
           Envelope.url := fullUrl;
           Envelope.headers := Some responseHeaders |}.

(** [catch (error) { throw new Error(`<label>: ${...}`) }] *)
Definition rethrow {A} (label : string) (error : Thrown) : Js A :=
  throw (ErrorObject (label +:+ ": " +:+ messageOf error)).
End Exchange.

(** A synchronous computation inside the [async] function. *)
Definition lift {A} (c : Completion A) : Js A := fun w => (c, w).

(** What [if (cond) { queryParams.push(entry); }] appends. *)
Definition pushIf (cond : bool) (entry : string) : list string :=
  if cond then [entry] else [].

(** [queryParams.length > 0 ? '?' + queryParams.join('&') : ''] *)
Definition queryString (queryParams : list string) : string :=
  if (0 <? length queryParams)%nat then "?" +:+ String.concat "&" queryParams
  else "".

(** ** [cmsContentDelivery] *)

Module ContentDelivery.

Record Parameters := {
  cmsUrl : string;
  authToken : string;
  operation : string;
  contentReference : option string;
  contentGuid : option string;
  siteId : option string;
  contentUrl : option string;
  language : option string;
  expand : option string;
  select : option string;
  top : option JsNumber
}.

Definition label : string := "CMS Content Delivery API call failed".

(** The operation identifiers of the [switch]. *)
Definition knownOperations : list string :=
  ["get-all-sites"; "get-site-by-id"; "get-content-by-reference";
   "get-content-by-guid"; "get-content-by-url"; "get-children"].

(** [if (top)] on [top?: number] *)
Definition topTruthy (t : option JsNumber) : bool :=
  match t with
  | Some x => numberToBoolean x
  | None => false
  end.

(** [`${top}`] *)
Definition topTpl (t : option JsNumber) : string :=
  match t with
  | Some x => numberToString x
  | None => "undefined"
  end.

(** The [switch (operation)]: the path and the query parameters pushed by
    the selected case, or the error the case throws. *)
Definition dispatch (p : Parameters) : Completion (string * list string) :=
  if String.eqb (operation p) "get-all-sites" then
    Normal ("/api/episerver/v3.0/site", [])
  else if String.eqb (operation p) "get-site-by-id" then
    if negb (truthy (siteId p)) then
      Abrupt (ErrorObject "siteId is required for get-site-by-id operation")
    else Normal ("/api/episerver/v3.0/site/" +:+ tpl (siteId p), [])
  else if String.eqb (operation p) "get-content-by-reference" then
    if negb (truthy (contentReference p)) then
      Abrupt (ErrorObject
        "contentReference is required for get-content-by-reference operation")
    else Normal ("/api/episerver/v3.0/content/" +:+ tpl (contentReference p), [])
  else if String.eqb (operation p) "get-content-by-guid" then
    if negb (truthy (contentGuid p)) then
      Abrupt (ErrorObject "contentGuid is required for get-content-by-guid operation")
    else Normal ("/api/episerver/v3.0/content/" +:+ tpl (contentGuid p), [])
  else if String.eqb (operation p) "get-content-by-url" then
    if negb (truthy (contentUrl p)) then
      Abrupt (ErrorObject "contentUrl is required for get-content-by-url operation")
    else Normal ("/api/episerver/v3.0/content",
                 ["contentUrl=" +:+ encodeURIComponent (tpl (contentUrl p))])
  else if String.eqb (operation p) "get-children" then
    if negb (truthy (contentReference p)) && negb (truthy (contentGuid p)) then
      Abrupt (ErrorObject
        "Either contentReference or contentGuid is required for get-children operation")
    else
      let apiPath :=
        if truthy (contentReference p) then
          "/api/episerver/v3.0/content/" +:+ tpl (contentReference p) +:+ "/children"
        else
          "/api/episerver/v3.0/content/" +:+ tpl (contentGuid p) +:+ "/children" in
      Normal (apiPath, pushIf (topTruthy (top p)) ("top=" +:+ topTpl (top p)))
  else
    Abrupt (ErrorObject ("Unknown operation: " +:+ operation p)).

(** "Add common query parameters" *)
Definition commonQueryParams (p : Parameters) : list string :=
  pushIf (truthy (expand p)) ("expand=" +:+ encodeURIComponent (tpl (expand p))) ++
  pushIf (truthy (select p)) ("select=" +:+ encodeURIComponent (tpl (select p))).

(** Everything before the [try]: [fullUrl], or the error of the [switch]. *)
Definition resolveUrl (p : Parameters) : Completion string :=
  let baseUrl := baseUrlOf (cmsUrl p) in
  match dispatch p with
  | Abrupt e => Abrupt e
  | Normal (apiPath, pushed) =>
      let queryParams := pushed ++ commonQueryParams p in
      Normal (baseUrl +:+ apiPath +:+ queryString queryParams)
  end.

Definition requestHeaders (p : Parameters) : list (string * string) :=
  [("Accept", "application/json");
   ("Content-Type", "application/json");
   ("Authorization", "Bearer " +:+ authToken p)] ++
  (if truthy (language p) then [("Accept-Language", tpl (language p))] else []).

Definition cmsContentDelivery {platform : Platform} (p : Parameters) : Js (Envelope.t Json) :=
  (let* fullUrl := lift (resolveUrl p) in
   tryCatch (exchange fullUrl (requestHeaders p)) (rethrow label))%js.

(** *** The parameter object

    [parameters] is an object; its properties are kept in the order the
    caller wrote them.  Each property has the type that
    [CmsContentDeliveryParameters] declares for it. *)

Inductive Property :=
| P_cmsUrl (v : string)
| P_authToken (v : string)
| P_operation (v : string)
| P_contentReference (v : string)
| P_contentGuid (v : string)
| P_siteId (v : string)
| P_contentUrl (v : string)
| P_language (v : string)
| P_expand (v : string)
| P_select (v : string)
| P_top (v : JsNumber).

Definition propertyName (x : Property) : string :=
  match x with
  | P_cmsUrl _ => "cmsUrl"
  | P_authToken _ => "authToken"
  | P_operation _ => "operation"
  | P_contentReference _ => "contentReference"
  | P_contentGuid _ => "contentGuid"
  | P_siteId _ => "siteId"
  | P_contentUrl _ => "contentUrl"
  | P_language _ => "language"
  | P_expand _ => "expand"
  | P_select _ => "select"
  | P_top _ => "top"
  end.

(** [parameters[name]], [None] for [undefined] *)
Definition property (name : string) (o : list Property) : option Property :=
  List.find (fun x => String.eqb (propertyName x) name) o.

Definition stringOf (x : option Property) : option string :=
  match x with
  | Some (P_cmsUrl v) | Some (P_authToken v) | Some (P_operation v)
  | Some (P_contentReference v) | Some (P_contentGuid v) | Some (P_siteId v)
  | Some (P_contentUrl v) | Some (P_language v) | Some (P_expand v)
  | Some (P_select v) => Some v
  | Some (P_top _) | None => None
  end.

Definition numberOf (x : option Property) : option JsNumber :=
  match x with
  | Some (P_top v) => Some v
  | _ => None
  end.

(** [const { cmsUrl, authToken, ..., top } = parameters]; [None] when one
    of the three properties the interface requires is missing. *)
Definition destructure (o : list Property) : option Parameters :=
  match stringOf (property "cmsUrl" o),
        stringOf (property "authToken" o),
        stringOf (property "operation" o) with
  | Some u, Some a, Some op =>
      Some {| cmsUrl := u;
              authToken := a;
              operation := op;
              contentReference := stringOf (property "contentReference" o);
              contentGuid := stringOf (property "contentGuid" o);
              siteId := stringOf (property "siteId" o);
              contentUrl := stringOf (property "contentUrl" o);
              language := stringOf (property "language" o);
              expand := stringOf (property "expand" o);
              select := stringOf (property "select" o);
              top := numberOf (property "top" o) |}
  | _, _, _ => None
  end.

End ContentDelivery.

(** ** [cmsContentManifest] *)

Module ContentManifest.

Record Parameters := {
  cmsUrl : string;
  authToken : option string;
  includeSystemTypes : option bool
}.

Definition label : string := "CMS Content Manifest API call failed".

(** [`${includeSystemTypes}`] on a boolean *)
Definition boolTpl (b : bool) : string := if b then "true" else "false".

Definition resolveUrl (p : Parameters) : string :=
  let baseUrl := baseUrlOf (cmsUrl p) in
  let apiPath := "/api/episerver/v3.0/contentmanifest" in
  let apiPath :=
    match includeSystemTypes p with
    | Some b => apiPath +:+ "?includeSystemTypes=" +:+ boolTpl b
    | None => apiPath
    end in
  baseUrl +:+ apiPath.

Definition requestHeaders (p : Parameters) : list (string * string) :=
  [("Accept", "application/json");
   ("Content-Type", "application/json")] ++
  (if truthy (authToken p) then [("Authorization", "Bearer " +:+ tpl (authToken p))]
   else []).

Definition cmsContentManifest {platform : Platform} (p : Parameters) : Js (Envelope.t Json) :=
  let fullUrl := resolveUrl p in
  tryCatch (exchange fullUrl (requestHeaders p)) (rethrow label).

End ContentManifest.

(** ** [cmsContentTypes] *)

Module ContentTypes.

Record Parameters := {
  cmsUrl : string;
  authToken : option string;
  contentTypeId : option string
}.

Definition label : string := "CMS Content Types API call failed".

Definition resolveUrl (p : Parameters) : string :=
  let baseUrl := baseUrlOf (cmsUrl p) in
  let apiPath :=
    if truthy (contentTypeId p) then
      "/api/episerver/v3.0/contenttypes/" +:+ tpl (contentTypeId p)
    else "/api/episerver/v3.0/contenttypes" in
  baseUrl +:+ apiPath.

Definition requestHeaders (p : Parameters) : list (string * string) :=
  [("Accept", "application/json");
   ("Content-Type", "application/json")] ++
  (if truthy (authToken p) then [("Authorization", "Bearer " +:+ tpl (authToken p))]
   else []).

Definition cmsContentTypes {platform : Platform} (p : Parameters) : Js (Envelope.t Json) :=
  let fullUrl := resolveUrl p in
  tryCatch (exchange fullUrl (requestHeaders p)) (rethrow label).

End ContentTypes.

(** ** Names for the states of one invocation *)

Definition requestOf (fullUrl : string) (headers : list (string * string))
  : Request.t :=
  {| Request.url := fullUrl; Request.method := "GET"; Request.headers := headers |}.

(** The state right after [fetch] was called with [req]. *)
Definition afterFetch (req : Request.t) : World :=
  {| fetched := [req]; bodyUsed := false |}.

(** The state after the body of the response was read. *)
Definition afterRead (req : Request.t) : World :=
  {| fetched := [req]; bodyUsed := true |}.

(** ** A platform to run the adapters on

    [JSON.parse] restricted to the three literal names, which is all the
    examples need; every JSON parser gives these answers on the texts used
    below.  The network answers every request with one fixed outcome. *)

Module Sample.

Inductive literal := LNull | LTrue | LFalse.

Definition parseLiteral (s : string) : literal + string :=
  if String.eqb s "null" then inl LNull
  else if String.eqb s "true" then inl LTrue
  else if String.eqb s "false" then inl LFalse
  else inr "Unexpected token in JSON".

Definition network (answer : FetchResult) : Platform :=
  {| Json := literal;
     JSON_parse := parseLiteral;
     fetch := fun _ => answer;
     bodyUnusable := "Body is unusable: Body has already been read" |}.

Definition jsonNull : Response.t :=
  {| Response.status := 200;
     Response.statusText := "OK";
     Response.headers := [("content-type", "application/json; charset=utf-8");
                          ("x-request-id", "7")];
     Response.body := Stream "null" |}.

(** A gateway in front of the CMS answers with an HTML page but labels it
    as JSON. *)
Definition badGateway : Response.t :=
  {| Response.status := 502;
     Response.statusText := "Bad Gateway";
     Response.headers := [("content-type", "application/json")];
     Response.body := Stream "<html>Bad Gateway</html>" |}.

Definition notFoundText : Response.t :=
  {| Response.status := 404;
     Response.statusText := "Not Found";
     Response.headers := [("content-type", "text/plain")];
     Response.body := Stream "no such content" |}.

Definition byReference : ContentDelivery.Parameters :=
  {| ContentDelivery.cmsUrl := "https://host.example";
     ContentDelivery.authToken := "t0ken";
     ContentDelivery.operation := "get-content-by-reference";
     ContentDelivery.contentReference := Some "5";
     ContentDelivery.contentGuid := None;
     ContentDelivery.siteId := None;
     ContentDelivery.contentUrl := None;
     ContentDelivery.language := None;
     ContentDelivery.expand := None;
     ContentDelivery.select := None;
     ContentDelivery.top := None |}.

Definition manifest : ContentManifest.Parameters :=
  {| ContentManifest.cmsUrl := "https://host.example/";
     ContentManifest.authToken := None;
     ContentManifest.includeSystemTypes := Some true |}.

Definition deleteContent : ContentDelivery.Parameters :=
  {| ContentDelivery.cmsUrl := "https://host.example";
     ContentDelivery.authToken := "t0ken";
     ContentDelivery.operation := "delete-content";
     ContentDelivery.contentReference := Some "5";
     ContentDelivery.contentGuid := None;
     ContentDelivery.siteId := None;
     ContentDelivery.contentUrl := None;
     ContentDelivery.language := None;
     ContentDelivery.expand := None;
     ContentDelivery.select := None;
     ContentDelivery.top := None |}.

Definition byReferenceSlash : ContentDelivery.Parameters :=
  {| ContentDelivery.cmsUrl := "https://host.example/";
     ContentDelivery.authToken := "t0ken";
     ContentDelivery.operation := "get-content-by-reference";
     ContentDelivery.contentReference := Some "5";
     ContentDelivery.contentGuid := None;
     ContentDelivery.siteId := None;
     ContentDelivery.contentUrl := None;
     ContentDelivery.language := None;
     ContentDelivery.expand := None;
     ContentDelivery.select := None;
     ContentDelivery.top := None |}.

Definition childrenByGuid : ContentDelivery.Parameters :=
  {| ContentDelivery.cmsUrl := "https://host.example";
     ContentDelivery.authToken := "t0ken";
     ContentDelivery.operation := "get-children";
     ContentDelivery.contentReference := None;
     ContentDelivery.contentGuid := Some "abc-123";
     ContentDelivery.siteId := None;
     ContentDelivery.contentUrl := None;
     ContentDelivery.language := None;
     ContentDelivery.expand := None;
     ContentDelivery.select := None;
     ContentDelivery.top := Some (numberOfZ 10) |}.

Definition emptySiteId : ContentDelivery.Parameters :=
  {| ContentDelivery.cmsUrl := "https://host.example";
     ContentDelivery.authToken := "t0ken";
     ContentDelivery.operation := "get-site-by-id";
     ContentDelivery.contentReference := None;
     ContentDelivery.contentGuid := None;
     ContentDelivery.siteId := Some "";
     ContentDelivery.contentUrl := None;
     ContentDelivery.language := None;
     ContentDelivery.expand := None;
     ContentDelivery.select := None;
     ContentDelivery.top := None |}.

Definition childrenTopZero : ContentDelivery.Parameters :=
  {| ContentDelivery.cmsUrl := "https://host.example";
     ContentDelivery.authToken := "t0ken";
     ContentDelivery.operation := "get-children";
     ContentDelivery.contentReference := Some "";
     ContentDelivery.contentGuid := Some "abc-123";
     ContentDelivery.siteId := None;
     ContentDelivery.contentUrl := None;
     ContentDelivery.language := None;
     ContentDelivery.expand := None;
     ContentDelivery.select := None;
     ContentDelivery.top := Some (Zero false) |}.

Definition twoCookies : Response.t :=
  {| Response.status := 200;
     Response.statusText := "OK";
     Response.headers := [("content-type", "text/plain");
                          ("set-cookie", "a=1");
                          ("set-cookie", "b=2")];
     Response.body := Stream "hello" |}.

(** One call written in two orders. *)
Definition byUrlSupplied : list ContentDelivery.Property :=
  [ContentDelivery.P_cmsUrl "https://host.example";
   ContentDelivery.P_authToken "t0ken";
   ContentDelivery.P_operation "get-content-by-url";
   ContentDelivery.P_contentUrl "https://site.example/en/start page";
   ContentDelivery.P_expand "*";
   ContentDelivery.P_select "name,url"].

Definition byUrlSuppliedBackwards : list ContentDelivery.Property :=
  [ContentDelivery.P_select "name,url";
   ContentDelivery.P_expand "*";
   ContentDelivery.P_contentUrl "https://site.example/en/start page";
   ContentDelivery.P_operation "get-content-by-url";
   ContentDelivery.P_authToken "t0ken";
   ContentDelivery.P_cmsUrl "https://host.example"].

Definition byUrl : ContentDelivery.Parameters :=
  {| ContentDelivery.cmsUrl := "https://host.example";
     ContentDelivery.authToken := "t0ken";
     ContentDelivery.operation := "get-content-by-url";
     ContentDelivery.contentReference := None;
     ContentDelivery.contentGuid := None;
     ContentDelivery.siteId := None;
     ContentDelivery.contentUrl := Some "https://site.example/en/start page";
     ContentDelivery.language := None;
     ContentDelivery.expand := Some "*";
     ContentDelivery.select := Some "name,url";
     ContentDelivery.top := None |}.

(** [top: 1e21] *)
Definition hugeTop : ContentDelivery.Parameters :=
  {| ContentDelivery.cmsUrl := "https://host.example";
     ContentDelivery.authToken := "t0ken";
     ContentDelivery.operation := "get-children";
     ContentDelivery.contentReference := Some "5";
     ContentDelivery.contentGuid := None;
     ContentDelivery.siteId := None;
     ContentDelivery.contentUrl := None;
     ContentDelivery.language := None;
     ContentDelivery.expand := None;
     ContentDelivery.select := None;
     ContentDelivery.top := Some (Finite false 1 22) |}.

(** A response that has a header named [__proto__]. *)
Definition protoHeader : Response.t :=
  {| Response.status := 200;
     Response.statusText := "OK";
     Response.headers := [("__proto__", "x"); ("content-type", "text/plain")];
     Response.body := Stream "hello" |}.

End Sample.

(** ** Vocabulary of the claims *)

(** A known operation is called without the identifying parameter it
    requires ([get-all-sites] requires none, [get-children] either of
    two). *)
Definition requiredParameterAbsent (p : ContentDelivery.Parameters) : Prop :=
  (ContentDelivery.operation p = "get-site-by-id" /\
   ContentDelivery.siteId p = None) \/
  (ContentDelivery.operation p = "get-content-by-reference" /\
   ContentDelivery.contentReference p = None) \/
  (ContentDelivery.operation p = "get-content-by-guid" /\
   ContentDelivery.contentGuid p = None) \/
  (ContentDelivery.operation p = "get-content-by-url" /\
   ContentDelivery.contentUrl p = None) \/
  (ContentDelivery.operation p = "get-children" /\
   ContentDelivery.contentReference p = None /\
   ContentDelivery.contentGuid p = None).

(** The value the last of the pairs named [k] carries. *)
Definition lastValue (k : string) (hs : list (string * string)) : option string :=
  snd <$> List.find (fun kv => String.eqb (fst kv) k) (rev hs).

(** The query parameters in the order the operations declare them: the
    parameter of the operation ([contentUrl] or [top]), then [expand], then
    [select], each only when present. *)
Definition declaredOrder (p : ContentDelivery.Parameters) : list string :=
  pushIf (String.eqb (ContentDelivery.operation p) "get-content-by-url"
          && truthy (ContentDelivery.contentUrl p))
         ("contentUrl=" +:+ encodeURIComponent (tpl (ContentDelivery.contentUrl p))) ++
  pushIf (String.eqb (ContentDelivery.operation p) "get-children"
          && ContentDelivery.topTruthy (ContentDelivery.top p))
         ("top=" +:+ ContentDelivery.topTpl (ContentDelivery.top p)) ++
  pushIf (truthy (ContentDelivery.expand p))
         ("expand=" +:+ encodeURIComponent (tpl (ContentDelivery.expand p))) ++
  pushIf (truthy (ContentDelivery.select p))
         ("select=" +:+ encodeURIComponent (tpl (ContentDelivery.select p))).

(** The value of each query parameter as the caller supplied it. *)
Definition suppliedValues (p : ContentDelivery.Parameters) : list (string * string) :=
  [("contentUrl", tpl (ContentDelivery.contentUrl p));
   ("top", ContentDelivery.topTpl (ContentDelivery.top p));
   ("expand", tpl (ContentDelivery.expand p));
   ("select", tpl (ContentDelivery.select p))].

(** [entry] is [name=value] with the percent-encoding of a supplied
    value. *)
Definition percentEncoded (p : ContentDelivery.Parameters) (entry : string) : Prop :=
  exists name raw,
    In (name, raw) (suppliedValues p) /\
    entry = name +:+ "=" +:+ encodeURIComponent raw.

(** The characters [encodeURIComponent] can produce. *)
Definition encodedChar (a : ascii) : bool := uriUnreserved a || Ascii.eqb a "%".

(** The characters other than [c]. *)
Definition isNot (c a : ascii) : bool := negb (Ascii.eqb a c).

(** ** Vocabulary of the further properties *)

(** The value of the property [name] of a header object. *)
Definition headerValue (name : string) (hs : list (string * string)) : option string :=
  snd <$> List.find (fun kv => String.eqb (fst kv) name) hs.

(** The operation is a known one and its identifying parameter is
    truthy. *)
Definition preflightOk (p : ContentDelivery.Parameters) : bool :=
  String.eqb (ContentDelivery.operation p) "get-all-sites" ||
  String.eqb (ContentDelivery.operation p) "get-site-by-id"
    && truthy (ContentDelivery.siteId p) ||
  String.eqb (ContentDelivery.operation p) "get-content-by-reference"
    && truthy (ContentDelivery.contentReference p) ||
  String.eqb (ContentDelivery.operation p) "get-content-by-guid"
    && truthy (ContentDelivery.contentGuid p) ||
  String.eqb (ContentDelivery.operation p) "get-content-by-url"
    && truthy (ContentDelivery.contentUrl p) ||
  String.eqb (ContentDelivery.operation p) "get-children"
    && (truthy (ContentDelivery.contentReference p)
        || truthy (ContentDelivery.contentGuid p)).

(** The text a body delivers when it is read for the first time. *)
Definition bodyText (r : Response.t) : option string :=
  match Response.body r with
  | NullBody => Some ""
  | Stream s => Some s
  | BrokenStream _ => None
  end.

(** The same call with other values for [authToken] and [language]. *)
Definition withCredentials (token : string) (lang : option string)
    (p : ContentDelivery.Parameters) : ContentDelivery.Parameters :=
  {| ContentDelivery.cmsUrl := ContentDelivery.cmsUrl p;
     ContentDelivery.authToken := token;
     ContentDelivery.operation := ContentDelivery.operation p;
     ContentDelivery.contentReference := ContentDelivery.contentReference p;
     ContentDelivery.contentGuid := ContentDelivery.contentGuid p;
     ContentDelivery.siteId := ContentDelivery.siteId p;
     ContentDelivery.contentUrl := ContentDelivery.contentUrl p;
     ContentDelivery.language := lang;
     ContentDelivery.expand := ContentDelivery.expand p;
     ContentDelivery.select := ContentDelivery.select p;
     ContentDelivery.top := ContentDelivery.top p |}.

(** The same call with another value for [top]. *)
Definition withTop (t : option JsNumber)
    (p : ContentDelivery.Parameters) : ContentDelivery.Parameters :=
  {| ContentDelivery.cmsUrl := ContentDelivery.cmsUrl p;
     ContentDelivery.authToken := ContentDelivery.authToken p;
     ContentDelivery.operation := ContentDelivery.operation p;
     ContentDelivery.contentReference := ContentDelivery.contentReference p;
     ContentDelivery.contentGuid := ContentDelivery.contentGuid p;
     ContentDelivery.siteId := ContentDelivery.siteId p;
     ContentDelivery.contentUrl := ContentDelivery.contentUrl p;
     ContentDelivery.language := ContentDelivery.language p;
     ContentDelivery.expand := ContentDelivery.expand p;
     ContentDelivery.select := ContentDelivery.select p;
     ContentDelivery.top := t |}.

(** Further calls and responses to run the adapters on. *)
Module Scenario.

Definition oneType : ContentTypes.Parameters :=
  {| ContentTypes.cmsUrl := "https://host.example/";
     ContentTypes.authToken := Some "t0ken";
     ContentTypes.contentTypeId := Some "StandardPage" |}.

(** [contentTypeId: ""] and [authToken: ""] *)
Definition emptyTypeId : ContentTypes.Parameters :=
  {| ContentTypes.cmsUrl := "https://host.example";
     ContentTypes.authToken := Some "";
     ContentTypes.contentTypeId := Some "" |}.

Definition allSitesSwedish : ContentDelivery.Parameters :=
  {| ContentDelivery.cmsUrl := "https://host.example";
     ContentDelivery.authToken := "t0ken";
     ContentDelivery.operation := "get-all-sites";
     ContentDelivery.contentReference := None;
     ContentDelivery.contentGuid := None;
     ContentDelivery.siteId := None;
     ContentDelivery.contentUrl := None;
     ContentDelivery.language := Some "sv";
     ContentDelivery.expand := None;
     ContentDelivery.select := None;
     ContentDelivery.top := Some (numberOfZ 10) |}.

(** An error response in the format of RFC 7807. *)
Definition problemJson : Response.t :=
  {| Response.status := 400;
     Response.statusText := "Bad Request";
     Response.headers := [("content-type", "application/problem+json")];
     Response.body := Stream "null" |}.

Definition noContent : Response.t :=
  {| Response.status := 204;
     Response.statusText := "No Content";
     Response.headers := [("content-type", "application/json")];
     Response.body := NullBody |}.

Definition byGuidFive : ContentDelivery.Parameters :=
  {| ContentDelivery.cmsUrl := "https://host.example";
     ContentDelivery.authToken := "t0ken";
     ContentDelivery.operation := "get-content-by-guid";
     ContentDelivery.contentReference := None;
     ContentDelivery.contentGuid := Some "5";
     ContentDelivery.siteId := None;
     ContentDelivery.contentUrl := None;
     ContentDelivery.language := None;
     ContentDelivery.expand := None;
     ContentDelivery.select := None;
     ContentDelivery.top := None |}.

End Scenario.

(** * Properties *)

Example numberOfZ_10 : numberOfZ 10 = Finite false 1 2.
Proof. reflexivity. Qed.
Example numberToString_ten : numberToString (numberOfZ 10) = "10". Proof. reflexivity. Qed.
Example numberToString_hundred : numberToString (numberOfZ 100) = "100".
Proof. reflexivity. Qed.
Example numberToString_negative : numberToString (numberOfZ (-1200)) = "-1200". Proof. reflexivity. Qed.
Example numberToString_1e21 : numberToString (Finite false 1 22) = "1e+21". Proof. reflexivity. Qed.
Example numberToString_fraction : numberToString (Finite false 15 1) = "1.5". Proof. reflexivity. Qed.
Example numberToString_small : numberToString (Finite false 1 (-6)) = "1e-7". Proof. reflexivity. Qed.
Example numberToString_leading_zeros : numberToString (Finite false 123 (-2)) = "0.00123". Proof. reflexivity. Qed.
Example numberToString_exponent : numberToString (Finite true 12345 25) = "-1.2345e+24". Proof. reflexivity. Qed.
Example encodeURIComponent_sample : encodeURIComponent "a b&c=d/é" = "a%20b%26c%3Dd%2F%C3%A9". Proof. reflexivity. Qed.
Example baseUrlOf_one_slash : baseUrlOf "https://h/" = "https://h". Proof. reflexivity. Qed.
Example baseUrlOf_two_slashes : baseUrlOf "https://h//" = "https://h/". Proof. reflexivity. Qed.
Example includes_json_charset : Str.includes "application/json" "application/json; charset=utf-8" = true.
Proof. reflexivity. Qed.

Example resolve_byReference :
  ContentDelivery.resolveUrl Sample.byReference
  = Normal "https://host.example/api/episerver/v3.0/content/5".
Proof. reflexivity. Qed.

(** ** The exchange with the network *)

Section ExchangeFacts.
Context {platform : Platform}.

Lemma exchange_rejects fullUrl hs e :
  fetch (requestOf fullUrl hs) = Rejects e ->
  exchange fullUrl hs initialWorld = (Abrupt e, afterFetch (requestOf fullUrl hs)).
Proof.
  intros Hf. unfold exchange, bind, fetchCall. fold (requestOf fullUrl hs).
  rewrite Hf. reflexivity.
Qed.

Lemma exchange_decode_throws fullUrl hs r e w :
  fetch (requestOf fullUrl hs) = Responds r ->
  decodeBody r (afterFetch (requestOf fullUrl hs)) = (Abrupt e, w) ->
  exchange fullUrl hs initialWorld = (Abrupt e, w).
Proof.
  intros Hf Hd. unfold exchange, bind, fetchCall. fold (requestOf fullUrl hs).
  rewrite Hf. cbn [fetched initialWorld app]. fold (afterFetch (requestOf fullUrl hs)).
  rewrite Hd. reflexivity.
Qed.

Lemma exchange_returns fullUrl hs r b w :
  fetch (requestOf fullUrl hs) = Responds r ->
  decodeBody r (afterFetch (requestOf fullUrl hs)) = (Normal b, w) ->
  exists env,
    exchange fullUrl hs initialWorld = (Normal env, w) /\
    Envelope.success env = Response.ok r /\
    Envelope.status env = Response.status r /\
    Envelope.statusText env = Response.statusText r /\
    Envelope.data env = (if Response.ok r then Some b else None) /\
    Envelope.error env = (if Response.ok r then None else Some b) /\
    Envelope.url env = fullUrl /\
    Envelope.headers env =
      (if Response.ok r then Some (collectHeaders (Response.headers r)) else None).
Proof.
  intros Hf Hd. unfold exchange, bind, fetchCall. fold (requestOf fullUrl hs).
  rewrite Hf. cbn [fetched initialWorld app]. fold (afterFetch (requestOf fullUrl hs)).
  rewrite Hd. destruct (Response.ok r); cbn; eexists; repeat split.
Qed.

(** Whatever the exchange returns was built from a response of the
    network to the one request it made. *)
Lemma exchange_returned fullUrl hs env w :
  exchange fullUrl hs initialWorld = (Normal env, w) ->
  exists r b,
    fetch (requestOf fullUrl hs) = Responds r /\
    decodeBody r (afterFetch (requestOf fullUrl hs)) = (Normal b, w).
Proof.
  unfold exchange, bind, fetchCall. fold (requestOf fullUrl hs).
  destruct (fetch (requestOf fullUrl hs)) as [r|e]; [|discriminate].
  cbn [fetched initialWorld app]. fold (afterFetch (requestOf fullUrl hs)).
  destruct (decodeBody r (afterFetch (requestOf fullUrl hs))) as [[b|e] w'] eqn:Hd;
    [|discriminate].
  intros Hret. exists r, b. split; [reflexivity|].
  destruct (negb (Response.ok r)); unfold ret in Hret; congruence.
Qed.

Lemma guarded_rejects label fullUrl hs e :
  fetch (requestOf fullUrl hs) = Rejects e ->
  tryCatch (exchange fullUrl hs) (rethrow label) initialWorld
  = (Abrupt (ErrorObject (label +:+ ": " +:+ messageOf e)),
     afterFetch (requestOf fullUrl hs)).
Proof.
  intros Hf. unfold tryCatch. rewrite (exchange_rejects _ _ _ Hf). reflexivity.
Qed.

Lemma guarded_decode_throws label fullUrl hs r e w :
  fetch (requestOf fullUrl hs) = Responds r ->
  decodeBody r (afterFetch (requestOf fullUrl hs)) = (Abrupt e, w) ->
  tryCatch (exchange fullUrl hs) (rethrow label) initialWorld
  = (Abrupt (ErrorObject (label +:+ ": " +:+ messageOf e)), w).
Proof.
  intros Hf Hd. unfold tryCatch. rewrite (exchange_decode_throws _ _ _ _ _ Hf Hd).
  reflexivity.
Qed.

Lemma guarded_returns label fullUrl hs env w :
  exchange fullUrl hs initialWorld = (Normal env, w) ->
  tryCatch (exchange fullUrl hs) (rethrow label) initialWorld = (Normal env, w).
Proof. intros He. unfold tryCatch. rewrite He. reflexivity. Qed.

Lemma guarded_returned label fullUrl hs env w :
  tryCatch (exchange fullUrl hs) (rethrow label) initialWorld = (Normal env, w) ->
  exchange fullUrl hs initialWorld = (Normal env, w).
Proof.
  unfold tryCatch.
  destruct (exchange fullUrl hs initialWorld) as [[a|e] w']; [tauto|].
  unfold rethrow, throw. discriminate.
Qed.

Lemma delivery_run p :
  run (ContentDelivery.cmsContentDelivery p)
  = match ContentDelivery.resolveUrl p with
    | Abrupt e => (Abrupt e, initialWorld)
    | Normal fullUrl =>
        tryCatch (exchange fullUrl (ContentDelivery.requestHeaders p))
                 (rethrow ContentDelivery.label) initialWorld
    end.
Proof.
  unfold run, ContentDelivery.cmsContentDelivery, bind, lift.
  destruct (ContentDelivery.resolveUrl p); reflexivity.
Qed.

Lemma manifest_run p :
  run (ContentManifest.cmsContentManifest p)
  = tryCatch (exchange (ContentManifest.resolveUrl p) (ContentManifest.requestHeaders p))
             (rethrow ContentManifest.label) initialWorld.
Proof. reflexivity. Qed.

End ExchangeFacts.

(** ** Status range *)

Lemma ok_iff_2xx r : Response.ok r = true <-> 200 <= Response.status r <= 299.
Proof. unfold Response.ok. rewrite andb_true_iff, !Z.leb_le. tauto. Qed.

(** ** The envelope *)

(** C1.  For a completed HTTP response (the network answered the request
    and the body was decoded) [cmsContentDelivery] returns an envelope whose
    [success] is true iff the status is in 200..299; with [success] true
    the envelope has [data] and no [error], with [success] false it has
    [error] and no [data]; in both cases it carries the status and the
    fully resolved request URL. *)
Theorem C1_envelope_success_iff_2xx {platform : Platform}
    (p : ContentDelivery.Parameters) (fullUrl : string) (r : Response.t)
    (b : Decoded Json) (w : World) :
  ContentDelivery.resolveUrl p = Normal fullUrl ->
  fetch (requestOf fullUrl (ContentDelivery.requestHeaders p)) = Responds r ->
  decodeBody r (afterFetch (requestOf fullUrl (ContentDelivery.requestHeaders p)))
    = (Normal b, w) ->
  exists env,
    run (ContentDelivery.cmsContentDelivery p) = (Normal env, w) /\
    (Envelope.success env = true <-> 200 <= Response.status r <= 299) /\
    (Envelope.success env = true ->
       Envelope.data env = Some b /\ Envelope.error env = None) /\
    (Envelope.success env = false ->
       Envelope.error env = Some b /\ Envelope.data env = None) /\
    Envelope.status env = Response.status r /\
    Envelope.url env = fullUrl.
Proof.
  intros Hurl Hf Hd.
  destruct (exchange_returns _ _ _ _ _ Hf Hd)
    as (env & Hex & Hs & Hst & _ & Hdata & Herr & Hu & _).
  exists env. rewrite delivery_run, Hurl, (guarded_returns _ _ _ _ _ Hex).
  rewrite Hs, Hdata, Herr, <- ok_iff_2xx.
  repeat split; try tauto; try assumption;
    destruct (Response.ok r); intros; congruence.
Qed.

Lemma C1_envelope_success_iff_2xx_witness :
  exists env,
    run (ContentDelivery.cmsContentDelivery
           (platform := Sample.network (Responds Sample.jsonNull))
           Sample.byReference)
    = (Normal env,
       afterRead (requestOf "https://host.example/api/episerver/v3.0/content/5"
                            (ContentDelivery.requestHeaders Sample.byReference))) /\
    Envelope.success env = true /\
    Envelope.data env = Some (ParsedJson Sample.LNull) /\
    Envelope.error env = None /\
    Envelope.url env = "https://host.example/api/episerver/v3.0/content/5".
Proof.
  destruct (C1_envelope_success_iff_2xx
              (platform := Sample.network (Responds Sample.jsonNull))
              Sample.byReference _ Sample.jsonNull (ParsedJson Sample.LNull) _
              eq_refl eq_refl eq_refl)
    as (env & Hrun & Hiff & Hok & _ & _ & Hu).
  assert (Hs : Envelope.success env = true) by (apply Hiff; cbn; lia).
  exists env. destruct (Hok Hs). repeat split; assumption.
Defined.

(** Every envelope [cmsContentDelivery] returns comes from a response of
    the network to the request for the resolved URL. *)
Lemma delivery_returned {platform : Platform} p env w :
  run (ContentDelivery.cmsContentDelivery p) = (Normal env, w) ->
  exists fullUrl r b,
    ContentDelivery.resolveUrl p = Normal fullUrl /\
    fetch (requestOf fullUrl (ContentDelivery.requestHeaders p)) = Responds r /\
    decodeBody r (afterFetch (requestOf fullUrl (ContentDelivery.requestHeaders p)))
      = (Normal b, w).
Proof.
  rewrite delivery_run.
  destruct (ContentDelivery.resolveUrl p) as [fullUrl|e]; [|discriminate].
  intros Hrun. apply guarded_returned, exchange_returned in Hrun.
  destruct Hrun as (r & b & Hf & Hd). exists fullUrl, r, b. auto.
Qed.

(** ** Strings: trailing characters *)

Lemma snoc_not_empty s c : s +:+ String c "" <> "".
Proof. destruct s; discriminate. Qed.

Lemma endsWithChar_snoc c s : Str.endsWithChar c (s +:+ String c "") = true.
Proof.
  induction s as [|a s IH].
  - cbn. apply Ascii.eqb_refl.
  - change (String a s +:+ String c "") with (String a (s +:+ String c "")).
    pose proof (snoc_not_empty s c) as Hne.
    destruct (s +:+ String c "") as [|b t]; [congruence|exact IH].
Qed.

Lemma dropLast_snoc c s : Str.dropLast (s +:+ String c "") = s.
Proof.
  induction s as [|a s IH]; [reflexivity|].
  change (String a s +:+ String c "") with (String a (s +:+ String c "")).
  pose proof (snoc_not_empty s c) as Hne.
  destruct (s +:+ String c "") as [|b t]; [congruence|].
  change (String a (Str.dropLast (String b t)) = String a s). now rewrite IH.
Qed.

(** ** The dispatcher *)

Import ContentDelivery.

Ltac case_operation p :=
  repeat match goal with
         | |- context [String.eqb (operation p) ?lit] =>
             destruct (String.eqb_spec (operation p) lit)
         end.

Lemma resolve_of_dispatch p path pushed :
  dispatch p = Normal (path, pushed) ->
  resolveUrl p
  = Normal (baseUrlOf (cmsUrl p) +:+ path +:+ queryString (pushed ++ commonQueryParams p)).
Proof. intros Hd. unfold resolveUrl. now rewrite Hd. Qed.

Lemma resolve_of_dispatch_abrupt p e :
  dispatch p = Abrupt e -> resolveUrl p = Abrupt e.
Proof. intros Hd. unfold resolveUrl. now rewrite Hd. Qed.

Lemma delivery_preflight {platform : Platform} p e :
  dispatch p = Abrupt e ->
  run (cmsContentDelivery p) = (Abrupt e, initialWorld).
Proof.
  intros Hd. now rewrite delivery_run, (resolve_of_dispatch_abrupt _ _ Hd).
Qed.

Lemma dispatch_unknown p :
  ~ In (operation p) knownOperations ->
  dispatch p = Abrupt (ErrorObject ("Unknown operation: " +:+ operation p)).
Proof.
  intros Hn. unfold dispatch. case_operation p; try reflexivity;
    exfalso; apply Hn; cbn; auto 10.
Qed.

Lemma dispatch_absent p :
  requiredParameterAbsent p ->
  exists msg, dispatch p = Abrupt (ErrorObject msg) /\
              Str.includes "required" msg = true.
Proof.
  unfold requiredParameterAbsent, dispatch.
  intros [(Ho & Hp)|[(Ho & Hp)|[(Ho & Hp)|[(Ho & Hp)|(Ho & Hp & Hq)]]]];
    rewrite Ho; cbn [String.eqb Ascii.eqb Bool.eqb]; rewrite ?Hp, ?Hq;
    eexists; split; reflexivity.
Qed.

Lemma dispatch_path p path pushed :
  dispatch p = Normal (path, pushed) ->
  exists rest, path = "/api/episerver/v3.0/" +:+ rest.
Proof.
  unfold dispatch. case_operation p;
    repeat match goal with
           | |- context [if ?c then _ else _] => destruct c
           end;
    intros Hd; inversion Hd; subst; eexists; reflexivity.
Qed.

(** C2.  When the operation identifier is not one of the known ones, or a
    known operation lacks its required identifying parameter,
    [cmsContentDelivery] completes by throwing an [Error] (it returns no
    envelope), and no request has been handed to [fetch].  For an unknown
    identifier the message is [Unknown operation: <identifier>], so for
    [delete-content] it contains [Unknown operation: delete-content]. *)
Theorem C2_preflight_error_before_fetch {platform : Platform} (p : Parameters) :
  ~ In (operation p) knownOperations \/ requiredParameterAbsent p ->
  exists msg w,
    run (cmsContentDelivery p) = (Abrupt (ErrorObject msg), w) /\
    fetched w = [] /\
    (~ In (operation p) knownOperations ->
       msg = "Unknown operation: " +:+ operation p) /\
    (operation p = "delete-content" ->
       Str.includes "Unknown operation: delete-content" msg = true).
Proof.
  intros [Hu|Ha].
  - exists ("Unknown operation: " +:+ operation p), initialWorld.
    rewrite (delivery_preflight _ _ (dispatch_unknown _ Hu)).
    repeat split. intros ->. reflexivity.
  - destruct (dispatch_absent _ Ha) as (msg & Hd & _).
    exists msg, initialWorld. rewrite (delivery_preflight _ _ Hd).
    repeat split.
    + intros Hu. rewrite (dispatch_unknown _ Hu) in Hd. congruence.
    + intros Ho. assert (Hu : ~ In (operation p) knownOperations).
      { rewrite Ho. cbn. intuition discriminate. }
      rewrite (dispatch_unknown _ Hu) in Hd. inversion Hd. rewrite Ho. reflexivity.
Qed.

Lemma C2_preflight_error_before_fetch_witness :
  exists msg w,
    run (cmsContentDelivery
           (platform := Sample.network (Responds Sample.jsonNull))
           Sample.deleteContent)
    = (Abrupt (ErrorObject msg), w) /\
    fetched w = [] /\
    Str.includes "Unknown operation: delete-content" msg = true.
Proof.
  assert (Hu : ~ In (operation Sample.deleteContent) knownOperations).
  { cbn. intuition discriminate. }
  destruct (C2_preflight_error_before_fetch
              (platform := Sample.network (Responds Sample.jsonNull))
              Sample.deleteContent (or_introl Hu))
    as (msg & w & Hrun & Hf & _ & Hm).
  exists msg, w. repeat split; [exact Hrun|exact Hf|exact (Hm eq_refl)].
Defined.

(** ** The base URL *)

Lemma baseUrlOf_slash s : baseUrlOf (s +:+ "/") = s.
Proof. unfold baseUrlOf. now rewrite endsWithChar_snoc, dropLast_snoc. Qed.

Lemma baseUrlOf_plain s : Str.endsWithChar "/" s = false -> baseUrlOf s = s.
Proof. intros Hs. unfold baseUrlOf. now rewrite Hs. Qed.

(** C3.  A base URL written as [s/] becomes [s], a single ['/'] being
    removed and the rest left as it is, and a base URL without a trailing
    ['/'] is kept.  So for an origin without trailing slash, given with or
    without one, the resolved URL is the origin followed by the path, which
    starts with [/api/]: one slash between origin and path.  The operation
    [get-content-by-reference] with [contentReference = "5"] on
    [https://host.example] resolves to
    [https://host.example/api/episerver/v3.0/content/5]. *)
Theorem C3_one_slash_between_origin_and_path
    (p : Parameters) (origin path : string) (pushed : list string) :
  Str.endsWithChar "/" origin = false ->
  cmsUrl p = origin \/ cmsUrl p = origin +:+ "/" ->
  dispatch p = Normal (path, pushed) ->
  (forall s, baseUrlOf (s +:+ "/") = s) /\
  (forall s, Str.endsWithChar "/" s = false -> baseUrlOf s = s) /\
  baseUrlOf (cmsUrl p) = origin /\
  (exists rest, path = "/api/episerver/v3.0/" +:+ rest) /\
  resolveUrl p
  = Normal (origin +:+ path +:+ queryString (pushed ++ commonQueryParams p)) /\
  (origin = "https://host.example" ->
   operation p = "get-content-by-reference" ->
   contentReference p = Some "5" ->
   expand p = None -> select p = None ->
   resolveUrl p = Normal "https://host.example/api/episerver/v3.0/content/5").
Proof.
  intros Hend Hbase Hd.
  assert (Hb : baseUrlOf (cmsUrl p) = origin).
  { destruct Hbase as [->| ->]; [now apply baseUrlOf_plain|apply baseUrlOf_slash]. }
  split; [exact baseUrlOf_slash|]. split; [exact baseUrlOf_plain|].
  split; [exact Hb|].
  split; [exact (dispatch_path _ _ _ Hd)|].
  split; [now rewrite (resolve_of_dispatch _ _ _ Hd), Hb|].
  intros -> Ho Hr He Hs. unfold resolveUrl, dispatch, commonQueryParams.
  rewrite Hb, Ho, Hr, He, Hs. reflexivity.
Qed.

Lemma C3_one_slash_between_origin_and_path_witness :
  baseUrlOf "https://host.example//" = "https://host.example/" /\
  resolveUrl Sample.byReferenceSlash
  = Normal "https://host.example/api/episerver/v3.0/content/5".
Proof.
  destruct (C3_one_slash_between_origin_and_path
              Sample.byReferenceSlash "https://host.example"
              "/api/episerver/v3.0/content/5" []
              eq_refl (or_intror eq_refl) eq_refl)
    as (Hstrip & _ & _ & _ & _ & Hurl).
  split; [exact (Hstrip "https://host.example/")|].
  exact (Hurl eq_refl eq_refl eq_refl eq_refl eq_refl).
Defined.

(** C4.  For [get-children] the path is built from [contentReference] when
    that is present (truthy), else from [contentGuid] when that is present,
    and otherwise the dispatcher throws; the path is
    [/api/episerver/v3.0/content/<id>/children] with the chosen identifier.
    With [contentGuid = "abc-123"], [top = 10] and nothing else supplied the
    URL ends in [/content/abc-123/children?top=10]. *)
Theorem C4_get_children_identifier (p : Parameters) :
  operation p = "get-children" ->
  (truthy (contentReference p) = true ->
   dispatch p
   = Normal ("/api/episerver/v3.0/content/" +:+ tpl (contentReference p) +:+ "/children",
             pushIf (topTruthy (top p)) ("top=" +:+ topTpl (top p)))) /\
  (truthy (contentReference p) = false -> truthy (contentGuid p) = true ->
   dispatch p
   = Normal ("/api/episerver/v3.0/content/" +:+ tpl (contentGuid p) +:+ "/children",
             pushIf (topTruthy (top p)) ("top=" +:+ topTpl (top p)))) /\
  (truthy (contentReference p) = false -> truthy (contentGuid p) = false ->
   dispatch p
   = Abrupt (ErrorObject
       "Either contentReference or contentGuid is required for get-children operation")) /\
  (contentReference p = None -> contentGuid p = Some "abc-123" ->
   top p = Some (numberOfZ 10) -> expand p = None -> select p = None ->
   resolveUrl p
   = Normal (baseUrlOf (cmsUrl p)
             +:+ "/api/episerver/v3.0/content/abc-123/children?top=10")).
Proof.
  intros Ho. unfold resolveUrl, commonQueryParams, dispatch. rewrite Ho.
  cbn [String.eqb Ascii.eqb Bool.eqb]. repeat split.
  - intros ->. reflexivity.
  - intros -> ->. reflexivity.
  - intros -> ->. reflexivity.
  - intros -> -> -> -> ->. reflexivity.
Qed.

Lemma C4_get_children_identifier_witness :
  resolveUrl Sample.childrenByGuid
  = Normal "https://host.example/api/episerver/v3.0/content/abc-123/children?top=10".
Proof.
  destruct (C4_get_children_identifier Sample.childrenByGuid eq_refl)
    as (_ & _ & _ & Hurl).
  exact (Hurl eq_refl eq_refl eq_refl eq_refl eq_refl).
Defined.

(** ** Presence of a parameter *)

(** C10.  A parameter counts as present when it is truthy.  A supplied
    empty string for [siteId], [contentReference], [contentGuid] or
    [contentUrl] gives the error for the missing parameter, thrown before
    any request; for [get-children] an empty [contentReference] makes the
    dispatcher take [contentGuid]; and [top = 0] adds no [top] query
    parameter. *)
Theorem C10_presence_is_truthiness {platform : Platform} (p : Parameters) :
  (operation p = "get-site-by-id" -> siteId p = Some "" ->
   run (cmsContentDelivery p)
   = (Abrupt (ErrorObject "siteId is required for get-site-by-id operation"),
      initialWorld)) /\
  (operation p = "get-content-by-reference" -> contentReference p = Some "" ->
   run (cmsContentDelivery p)
   = (Abrupt (ErrorObject
        "contentReference is required for get-content-by-reference operation"),
      initialWorld)) /\
  (operation p = "get-content-by-guid" -> contentGuid p = Some "" ->
   run (cmsContentDelivery p)
   = (Abrupt (ErrorObject "contentGuid is required for get-content-by-guid operation"),
      initialWorld)) /\
  (operation p = "get-content-by-url" -> contentUrl p = Some "" ->
   run (cmsContentDelivery p)
   = (Abrupt (ErrorObject "contentUrl is required for get-content-by-url operation"),
      initialWorld)) /\
  (operation p = "get-children" -> contentReference p = Some "" ->
   truthy (contentGuid p) = true ->
   exists pushed,
     dispatch p
     = Normal ("/api/episerver/v3.0/content/" +:+ tpl (contentGuid p) +:+ "/children",
               pushed)) /\
  (operation p = "get-children" -> contentReference p = Some "" ->
   truthy (contentGuid p) = false ->
   run (cmsContentDelivery p)
   = (Abrupt (ErrorObject
        "Either contentReference or contentGuid is required for get-children operation"),
      initialWorld)) /\
  (forall negative path pushed,
     operation p = "get-children" -> top p = Some (Zero negative) ->
     dispatch p = Normal (path, pushed) ->
     pushed = [] /\
     resolveUrl p
     = Normal (baseUrlOf (cmsUrl p) +:+ path +:+ queryString (commonQueryParams p))).
Proof.
  repeat apply conj.
  - intros Ho Hp. apply delivery_preflight. unfold dispatch. now rewrite Ho, Hp.
  - intros Ho Hp. apply delivery_preflight. unfold dispatch. now rewrite Ho, Hp.
  - intros Ho Hp. apply delivery_preflight. unfold dispatch. now rewrite Ho, Hp.
  - intros Ho Hp. apply delivery_preflight. unfold dispatch. now rewrite Ho, Hp.
  - intros Ho Hp Hg. eexists. unfold dispatch. rewrite Ho, Hp, Hg. reflexivity.
  - intros Ho Hp Hg. apply delivery_preflight. unfold dispatch.
    now rewrite Ho, Hp, Hg.
  - intros negative path pushed Ho Ht Hd.
    rewrite (resolve_of_dispatch _ _ _ Hd).
    unfold dispatch in Hd. rewrite Ho, Ht in Hd.
    cbn [String.eqb Ascii.eqb Bool.eqb topTruthy numberToBoolean pushIf] in Hd.
    destruct (negb (truthy (contentReference p)) && negb (truthy (contentGuid p)));
      [discriminate|].
    inversion Hd. split; reflexivity.
Qed.

Lemma C10_presence_is_truthiness_witness :
  run (cmsContentDelivery
         (platform := Sample.network (Responds Sample.jsonNull))
         Sample.emptySiteId)
  = (Abrupt (ErrorObject "siteId is required for get-site-by-id operation"),
     initialWorld) /\
  resolveUrl Sample.childrenTopZero
  = Normal "https://host.example/api/episerver/v3.0/content/abc-123/children".
Proof.
  split.
  - exact (proj1 (C10_presence_is_truthiness
                    (platform := Sample.network (Responds Sample.jsonNull))
                    Sample.emptySiteId) eq_refl eq_refl).
  - destruct (C10_presence_is_truthiness
                (platform := Sample.network (Responds Sample.jsonNull))
                Sample.childrenTopZero) as (_ & _ & _ & _ & _ & _ & Htop).
    exact (proj2 (Htop false _ _ eq_refl eq_refl eq_refl)).
Defined.

(** ** Decoding the body *)

Section DecodeFacts.
Context {platform : Platform}.

Lemma decode_json_parsed r s v req :
  declaresJson r = true -> Response.body r = Stream s -> JSON_parse s = inl v ->
  decodeBody r (afterFetch req) = (Normal (ParsedJson v), afterRead req).
Proof.
  intros Hj Hb Hp. unfold decodeBody, tryCatch, json, text, bind, consumeBody.
  rewrite Hj, Hb. cbn. rewrite Hp. reflexivity.
Qed.

Lemma decode_text r s req :
  declaresJson r = false -> Response.body r = Stream s ->
  decodeBody r (afterFetch req) = (Normal (RawText s), afterRead req).
Proof.
  intros Hj Hb. unfold decodeBody, text, bind, consumeBody.
  rewrite Hj, Hb. reflexivity.
Qed.

(** Without a body there is no stream that could be used up, and the
    fallback to [text()] gives the empty string. *)
Lemma decode_json_null_body r m req :
  declaresJson r = true -> Response.body r = NullBody -> JSON_parse "" = inr m ->
  decodeBody r (afterFetch req) = (Normal (RawText ""), afterFetch req).
Proof.
  intros Hj Hb Hp. unfold decodeBody, tryCatch, json, text, bind, consumeBody.
  rewrite Hj, Hb. cbn. rewrite Hp. reflexivity.
Qed.

(** [response.json()] has read the stream when the parser rejects the
    text, so the [response.text()] of the [catch] block finds the body
    used and throws. *)
Lemma decode_json_unparsable r s m req :
  declaresJson r = true -> Response.body r = Stream s -> JSON_parse s = inr m ->
  decodeBody r (afterFetch req) = (Abrupt (ErrorObject bodyUnusable), afterRead req).
Proof.
  intros Hj Hb Hp. unfold decodeBody, tryCatch, json, text, bind, consumeBody.
  rewrite Hj, Hb. cbn. rewrite Hp. reflexivity.
Qed.

(** A stream that fails while [response.json()] reads it ends the same
    way; outside the JSON branch the failure itself leaves the block. *)
Lemma decode_json_broken_stream r e req :
  declaresJson r = true -> Response.body r = BrokenStream e ->
  decodeBody r (afterFetch req) = (Abrupt (ErrorObject bodyUnusable), afterRead req).
Proof.
  intros Hj Hb. unfold decodeBody, tryCatch, json, text, bind, consumeBody.
  rewrite Hj, Hb. reflexivity.
Qed.

Lemma decode_text_broken_stream r e req :
  declaresJson r = false -> Response.body r = BrokenStream e ->
  decodeBody r (afterFetch req) = (Abrupt e, afterRead req).
Proof.
  intros Hj Hb. unfold decodeBody, text, bind, consumeBody.
  rewrite Hj, Hb. reflexivity.
Qed.

(** The [try]/[catch] around [response.json()]: whatever it throws is
    dropped, and the block goes on with [response.text()]. *)
Lemma decode_json_exception_dropped r e0 w1 w2 :
  declaresJson r = true -> json r w1 = (Abrupt e0, w2) ->
  decodeBody r w1 = bind (text r) (fun s => ret (RawText s)) w2.
Proof.
  intros Hj He. unfold decodeBody, tryCatch. rewrite Hj.
  unfold bind at 1. now rewrite He.
Qed.

Lemma decode_text_exception r e w1 w2 :
  declaresJson r = false -> text r w1 = (Abrupt e, w2) ->
  decodeBody r w1 = (Abrupt e, w2).
Proof.
  intros Hj He. unfold decodeBody, bind. now rewrite Hj, He.
Qed.

End DecodeFacts.

(** C5 (what the code does where the claim fails).  A response that
    declares JSON and whose body is not JSON text: [response.json()] reads
    the body and throws, the [catch] block calls [response.text()] on the
    body that was just read, and that throws the [TypeError] for a used
    body.  No raw text is returned; [cmsContentDelivery] and
    [cmsContentManifest] throw the wrapped error. *)
Theorem C5_unparsable_json_body_throws {platform : Platform}
    (r : Response.t) (s m : string) :
  declaresJson r = true ->
  Response.body r = Stream s ->
  JSON_parse s = inr m ->
  (forall req,
     decodeBody r (afterFetch req)
     = (Abrupt (ErrorObject bodyUnusable), afterRead req)) /\
  (forall p fullUrl,
     resolveUrl p = Normal fullUrl ->
     fetch (requestOf fullUrl (requestHeaders p)) = Responds r ->
     run (cmsContentDelivery p)
     = (Abrupt (ErrorObject (label +:+ ": " +:+ bodyUnusable)),
        afterRead (requestOf fullUrl (requestHeaders p)))) /\
  (forall q,
     fetch (requestOf (ContentManifest.resolveUrl q) (ContentManifest.requestHeaders q))
     = Responds r ->
     run (ContentManifest.cmsContentManifest q)
     = (Abrupt (ErrorObject (ContentManifest.label +:+ ": " +:+ bodyUnusable)),
        afterRead (requestOf (ContentManifest.resolveUrl q)
                             (ContentManifest.requestHeaders q)))).
Proof.
  intros Hj Hb Hp. repeat apply conj.
  - intros req. exact (decode_json_unparsable _ _ _ _ Hj Hb Hp).
  - intros p fullUrl Hurl Hf. rewrite delivery_run, Hurl.
    exact (guarded_decode_throws _ _ _ _ _ _ Hf (decode_json_unparsable _ _ _ _ Hj Hb Hp)).
  - intros q Hf. rewrite manifest_run.
    exact (guarded_decode_throws _ _ _ _ _ _ Hf (decode_json_unparsable _ _ _ _ Hj Hb Hp)).
Qed.

Lemma C5_unparsable_json_body_throws_witness :
  run (cmsContentDelivery
         (platform := Sample.network (Responds Sample.badGateway))
         Sample.byReference)
  = (Abrupt (ErrorObject
       "CMS Content Delivery API call failed: Body is unusable: Body has already been read"),
     afterRead (requestOf "https://host.example/api/episerver/v3.0/content/5"
                          (requestHeaders Sample.byReference))).
Proof.
  destruct (C5_unparsable_json_body_throws
              (platform := Sample.network (Responds Sample.badGateway))
              Sample.badGateway "<html>Bad Gateway</html>" "Unexpected token in JSON"
              eq_refl eq_refl eq_refl) as (_ & Hrun & _).
  exact (Hrun Sample.byReference _ eq_refl eq_refl).
Defined.

(** ** Response headers *)

Lemma collectHeaders_snoc hs k v :
  collectHeaders (hs ++ [(k, v)]) = assignProperty k v (collectHeaders hs).
Proof. unfold collectHeaders. now rewrite fold_left_app. Qed.

Lemma collectHeaders_proto (hs : list (string * string)) :
  collectHeaders hs !! "__proto__" = None.
Proof.
  induction hs as [|[k' v'] hs IH] using rev_ind; [reflexivity|].
  rewrite collectHeaders_snoc. unfold assignProperty.
  destruct (String.eqb_spec k' "__proto__") as [_|Hne]; [exact IH|].
  rewrite lookup_insert_ne by exact Hne. exact IH.
Qed.

Lemma collectHeaders_lookup (hs : list (string * string)) k :
  k <> "__proto__" -> collectHeaders hs !! k = lastValue k hs.
Proof.
  intros Hk. induction hs as [|[k' v'] hs IH] using rev_ind; [reflexivity|].
  rewrite collectHeaders_snoc. unfold lastValue, assignProperty.
  rewrite rev_app_distr. cbn.
  destruct (String.eqb_spec k' k) as [->|Hne].
  - destruct (String.eqb_spec k "__proto__") as [Heq|_]; [contradiction|].
    now rewrite lookup_insert_eq.
  - destruct (String.eqb_spec k' "__proto__") as [_|_]; [exact IH|].
    rewrite lookup_insert_ne by exact Hne. exact IH.
Qed.

Lemma collectHeaders_bound (hs : list (string * string)) k v :
  collectHeaders hs !! k = Some v -> k <> "__proto__" /\ lastValue k hs = Some v.
Proof.
  intros Hm. destruct (String.eqb_spec k "__proto__") as [->|Hne].
  - now rewrite collectHeaders_proto in Hm.
  - split; [exact Hne|]. now rewrite <- collectHeaders_lookup.
Qed.

Lemma lastValue_is_bound k v (hs : list (string * string)) :
  lastValue k hs = Some v -> In (k, v) hs.
Proof.
  unfold lastValue.
  destruct (List.find _ (rev hs)) as [[k' v']|] eqn:Hfind; [|discriminate].
  apply find_some in Hfind. destruct Hfind as [Hin Heq].
  apply String.eqb_eq in Heq. cbn in Heq. subst k'.
  cbn. intros [= <-]. now apply in_rev.
Qed.

Lemma lastValue_of_name k v (hs : list (string * string)) :
  In (k, v) hs -> exists v', lastValue k hs = Some v'.
Proof.
  intros Hin. unfold lastValue.
  destruct (List.find _ (rev hs)) as [[k' v']|] eqn:Hfind; [now exists v'|].
  exfalso. apply in_rev in Hin.
  pose proof (find_none _ _ Hfind _ Hin) as Hno. cbn in Hno.
  now rewrite String.eqb_refl in Hno.
Qed.

(** C8 (what the code does where the claim fails).  For a completed HTTP
    response with a status in 200..299 the envelope of [cmsContentDelivery]
    and of [cmsContentManifest] has a [headers] mapping in which every
    header name other than [__proto__] is a key, mapped to the value of the
    last header of that name, and which holds nothing else.  A header named
    [__proto__] is not in the mapping: the assignment
    [responseHeaders[key] = value] stores nothing for that key.  With any
    other status the envelope has no [headers]. *)
Theorem C8_headers_only_on_success {platform : Platform}
    (fullUrl : string) (hs : list (string * string)) (r : Response.t)
    (b : Decoded Json) (w : World) :
  fetch (requestOf fullUrl hs) = Responds r ->
  decodeBody r (afterFetch (requestOf fullUrl hs)) = (Normal b, w) ->
  exists env,
    (forall p, resolveUrl p = Normal fullUrl -> requestHeaders p = hs ->
               run (cmsContentDelivery p) = (Normal env, w)) /\
    (forall q, ContentManifest.resolveUrl q = fullUrl ->
               ContentManifest.requestHeaders q = hs ->
               run (ContentManifest.cmsContentManifest q) = (Normal env, w)) /\
    (200 <= Response.status r <= 299 ->
     exists m,
       Envelope.headers env = Some m /\
       m !! "__proto__" = None /\
       (forall k, k <> "__proto__" -> m !! k = lastValue k (Response.headers r)) /\
       (forall k v, In (k, v) (Response.headers r) -> k <> "__proto__" ->
                    is_Some (m !! k)) /\
       (forall k v, m !! k = Some v -> In (k, v) (Response.headers r))) /\
    (~ 200 <= Response.status r <= 299 -> Envelope.headers env = None).
Proof.
  intros Hf Hd.
  destruct (exchange_returns _ _ _ _ _ Hf Hd)
    as (env & Hex & _ & _ & _ & _ & _ & _ & Hh).
  exists env. repeat apply conj.
  - intros p Hurl Hhs. rewrite delivery_run, Hurl, Hhs.
    now apply guarded_returns.
  - intros q Hurl Hhs. rewrite manifest_run, Hurl, Hhs.
    now apply guarded_returns.
  - intros Hok. apply ok_iff_2xx in Hok. rewrite Hok in Hh.
    exists (collectHeaders (Response.headers r)). repeat apply conj.
    + exact Hh.
    + apply collectHeaders_proto.
    + intros k Hk. now apply collectHeaders_lookup.
    + intros k v Hin Hk. rewrite collectHeaders_lookup by exact Hk.
      destruct (lastValue_of_name _ _ _ Hin) as [v' ->]. now exists v'.
    + intros k v Hm. apply collectHeaders_bound in Hm as [_ Hm].
      now apply lastValue_is_bound.
  - intros Hno. rewrite <- ok_iff_2xx in Hno.
    destruct (Response.ok r); [now elim Hno|exact Hh].
Qed.

Lemma C8_headers_only_on_success_witness :
  exists env m,
    run (cmsContentDelivery
           (platform := Sample.network (Responds Sample.protoHeader))
           Sample.byReference)
    = (Normal env,
       afterRead (requestOf "https://host.example/api/episerver/v3.0/content/5"
                            (requestHeaders Sample.byReference))) /\
    Envelope.success env = true /\
    Envelope.headers env = Some m /\
    In ("__proto__", "x") (Response.headers Sample.protoHeader) /\
    m !! "__proto__" = None /\
    m !! "content-type" = Some "text/plain".
Proof.
  destruct (C8_headers_only_on_success
              (platform := Sample.network (Responds Sample.protoHeader))
              "https://host.example/api/episerver/v3.0/content/5"
              (requestHeaders Sample.byReference)
              Sample.protoHeader (RawText "hello") _ eq_refl eq_refl)
    as (env & Hrun & _ & Hok & _).
  destruct Hok as (m & Hm & Hproto & Hlast & _); [cbn; lia|].
  pose proof (Hrun Sample.byReference eq_refl eq_refl) as Hr.
  exists env, m. repeat apply conj.
  - exact Hr.
  - cbv in Hr. now injection Hr as <-.
  - exact Hm.
  - now left.
  - exact Hproto.
  - apply (Hlast "content-type"). discriminate.
Defined.

(** ** Failures inside the [try] block *)

Lemma append_cons a s t : String a s +:+ t = String a (s +:+ t).
Proof. reflexivity. Qed.

Lemma append_empty_r s : s +:+ "" = s.
Proof. induction s as [|a s IH]; [reflexivity|]. now rewrite append_cons, IH. Qed.

Lemma append_assoc s t u : (s +:+ t) +:+ u = s +:+ t +:+ u.
Proof. induction s as [|a s IH]; [reflexivity|]. now rewrite !append_cons, IH. Qed.

Lemma prefix_app s t : String.prefix s (s +:+ t) = true.
Proof.
  induction s as [|a s IH]; [now destruct t|].
  rewrite append_cons. cbn [String.prefix].
  destruct (ascii_dec a a); [exact IH|congruence].
Qed.

Lemma includes_here s t : String.prefix s t = true -> Str.includes s t = true.
Proof. intros Hp. destruct t; cbn [Str.includes]; now rewrite Hp. Qed.

Lemma includes_suffix s t : Str.includes s (t +:+ s) = true.
Proof.
  induction t as [|a t IH].
  - apply includes_here. pose proof (prefix_app s "") as Hp.
    now rewrite append_empty_r in Hp.
  - rewrite append_cons. cbn [Str.includes]. rewrite IH. apply orb_true_r.
Qed.

Lemma wrapped_message label e :
  String.prefix (label +:+ ":") (label +:+ ": " +:+ messageOf e) = true /\
  Str.includes (messageOf e) (label +:+ ": " +:+ messageOf e) = true.
Proof.
  split.
  - change (": " +:+ messageOf e) with (":" +:+ " " +:+ messageOf e).
    rewrite <- append_assoc. apply prefix_app.
  - rewrite <- append_assoc. apply includes_suffix.
Qed.

(** C9 fails as stated: an exception of [response.json()] is caught by the
    [catch] of the decoding block and is not thrown again.  For a response
    without a body that declares JSON, [response.json()] throws, the
    fallback gives the empty text and the adapter returns an envelope; for
    a JSON-declared page that is no JSON text, the error the adapter throws
    does not contain the message of the exception of [response.json()]. *)
Lemma C9_json_exception_not_rethrown :
  json (platform := Sample.network (Responds Scenario.noContent))
    Scenario.noContent
    (afterFetch (requestOf "https://host.example/api/episerver/v3.0/content/5"
                           (requestHeaders Sample.byReference)))
  = (Abrupt (ErrorObject "Unexpected token in JSON"),
     afterFetch (requestOf "https://host.example/api/episerver/v3.0/content/5"
                           (requestHeaders Sample.byReference))) /\
  (exists env,
     run (cmsContentDelivery
            (platform := Sample.network (Responds Scenario.noContent))
            Sample.byReference)
     = (Normal env,
        afterFetch (requestOf "https://host.example/api/episerver/v3.0/content/5"
                              (requestHeaders Sample.byReference))) /\
     Envelope.data env = Some (RawText "")) /\
  json (platform := Sample.network (Responds Sample.badGateway))
    Sample.badGateway
    (afterFetch (requestOf "https://host.example/api/episerver/v3.0/content/5"
                           (requestHeaders Sample.byReference)))
  = (Abrupt (ErrorObject "Unexpected token in JSON"),
     afterRead (requestOf "https://host.example/api/episerver/v3.0/content/5"
                          (requestHeaders Sample.byReference))) /\
  (exists msg w,
     run (cmsContentDelivery
            (platform := Sample.network (Responds Sample.badGateway))
            Sample.byReference)
     = (Abrupt (ErrorObject msg), w) /\
     Str.includes "Unexpected token in JSON" msg = false).
Proof.
  split; [reflexivity|]. split; [eexists; split; reflexivity|].
  split; [reflexivity|]. eexists. eexists. split; reflexivity.
Qed.

(** C9, amended.  When [fetch] throws, or the decoding block ends by
    throwing (which an exception of [response.text()] makes it do), the
    exception is caught and [cmsContentDelivery] throws one [Error] whose
    message is [CMS Content Delivery API call failed: ] followed by the
    message of the exception ([cmsContentManifest]: [CMS Content Manifest
    API call failed: ]).  An exception of [response.json()] does not end
    the decoding block: it is dropped and the block goes on with
    [response.text()]. *)
Theorem C9_failures_rethrown_with_label {platform : Platform}
    (fullUrl : string) (hs : list (string * string)) (e : Thrown) (w : World) :
  (fetch (requestOf fullUrl hs) = Rejects e /\ w = afterFetch (requestOf fullUrl hs)) \/
  (exists r, fetch (requestOf fullUrl hs) = Responds r /\
             decodeBody r (afterFetch (requestOf fullUrl hs)) = (Abrupt e, w)) ->
  (forall p,
     resolveUrl p = Normal fullUrl -> requestHeaders p = hs ->
     run (cmsContentDelivery p)
     = (Abrupt (ErrorObject
          ("CMS Content Delivery API call failed: " +:+ messageOf e)), w)) /\
  (forall q,
     ContentManifest.resolveUrl q = fullUrl -> ContentManifest.requestHeaders q = hs ->
     run (ContentManifest.cmsContentManifest q)
     = (Abrupt (ErrorObject
          ("CMS Content Manifest API call failed: " +:+ messageOf e)), w)) /\
  Str.includes (messageOf e)
    ("CMS Content Delivery API call failed: " +:+ messageOf e) = true /\
  Str.includes (messageOf e)
    ("CMS Content Manifest API call failed: " +:+ messageOf e) = true /\
  (forall r e' w1 w2,
     declaresJson r = false -> text r w1 = (Abrupt e', w2) ->
     decodeBody r w1 = (Abrupt e', w2)) /\
  (forall r e0 w1 w2,
     declaresJson r = true -> json r w1 = (Abrupt e0, w2) ->
     decodeBody r w1 = bind (text r) (fun s => ret (RawText s)) w2).
Proof.
  intros Hfail. repeat apply conj.
  - intros p Hurl Hhs. rewrite delivery_run, Hurl, Hhs.
    destruct Hfail as [[Hf ->]|(r & Hf & Hd)].
    + exact (guarded_rejects _ _ _ _ Hf).
    + exact (guarded_decode_throws _ _ _ _ _ _ Hf Hd).
  - intros q Hurl Hhs. rewrite manifest_run, Hurl, Hhs.
    destruct Hfail as [[Hf ->]|(r & Hf & Hd)].
    + exact (guarded_rejects _ _ _ _ Hf).
    + exact (guarded_decode_throws _ _ _ _ _ _ Hf Hd).
  - exact (proj2 (wrapped_message label e)).
  - exact (proj2 (wrapped_message ContentManifest.label e)).
  - intros r e' w1 w2. apply decode_text_exception.
  - intros r e0 w1 w2. apply decode_json_exception_dropped.
Qed.

Lemma C9_failures_rethrown_with_label_witness :
  run (cmsContentDelivery
         (platform := Sample.network (Rejects (ErrorObject "fetch failed")))
         Sample.byReference)
  = (Abrupt (ErrorObject "CMS Content Delivery API call failed: fetch failed"),
     afterFetch (requestOf "https://host.example/api/episerver/v3.0/content/5"
                           (requestHeaders Sample.byReference))) /\
  run (ContentManifest.cmsContentManifest
         (platform := Sample.network (Rejects (ErrorObject "fetch failed")))
         Sample.manifest)
  = (Abrupt (ErrorObject "CMS Content Manifest API call failed: fetch failed"),
     afterFetch (requestOf
       "https://host.example/api/episerver/v3.0/contentmanifest?includeSystemTypes=true"
       (ContentManifest.requestHeaders Sample.manifest))).
Proof.
  split.
  - exact (proj1 (C9_failures_rethrown_with_label
             (platform := Sample.network (Rejects (ErrorObject "fetch failed")))
             _ _ _ _ (or_introl (conj eq_refl eq_refl)))
             Sample.byReference eq_refl eq_refl).
  - exact (proj1 (proj2 (C9_failures_rethrown_with_label
             (platform := Sample.network (Rejects (ErrorObject "fetch failed")))
             _ _ _ _ (or_introl (conj eq_refl eq_refl))))
             Sample.manifest eq_refl eq_refl).
Defined.

(** ** Order of the query parameters *)

Lemma property_permutation name (o o' : list Property) :
  List.NoDup (List.map propertyName o) -> Permutation o o' ->
  property name o = property name o'.
Proof.
  intros Hnd Hperm. induction Hperm as [|x l l' Hp IH|x y l|l l' l'' H1 IH1 H2 IH2].
  - reflexivity.
  - unfold property in *. cbn in *. apply List.NoDup_cons_iff in Hnd.
    now rewrite IH.
  - unfold property. cbn.
    destruct (String.eqb_spec (propertyName y) name) as [Hy|Hy];
      destruct (String.eqb_spec (propertyName x) name) as [Hx|Hx]; try reflexivity.
    exfalso. cbn in Hnd. apply List.NoDup_cons_iff in Hnd. destruct Hnd as [Hnotin _].
    apply Hnotin. left. congruence.
  - rewrite IH1 by exact Hnd. apply IH2.
    apply (Permutation_NoDup (Permutation_map propertyName H1) Hnd).
Qed.

Lemma destructure_permutation (o o' : list Property) :
  List.NoDup (List.map propertyName o) -> Permutation o o' ->
  destructure o = destructure o'.
Proof.
  intros Hnd Hperm. unfold destructure.
  now rewrite !(property_permutation _ o o' Hnd Hperm).
Qed.

Lemma dispatch_declared_order p path pushed :
  dispatch p = Normal (path, pushed) ->
  pushed ++ commonQueryParams p = declaredOrder p.
Proof.
  unfold dispatch, declaredOrder, commonQueryParams.
  case_operation p; try (exfalso; congruence);
    cbn [andb pushIf app];
    repeat match goal with
           | |- context [if negb ?c && negb ?d then _ else _] =>
               destruct c eqn:?, d eqn:?; cbn [negb andb]
           | |- context [if negb ?c then _ else _] => destruct c eqn:?; cbn [negb andb]
           end;
    intros Hd; inversion Hd; subst; try reflexivity.
Qed.

(** C6.  The query parameters appear in the order of declaration: the
    parameter of the operation ([contentUrl] or [top]) first, then
    [expand], then [select], each only when present.  The parameter object
    is read by property name, so two objects with the same properties in
    different orders give the same parameters and the same URL. *)
Theorem C6_query_order_is_declaration_order
    (o o' : list Property) (p : Parameters) (path : string) (pushed : list string) :
  List.NoDup (List.map propertyName o) ->
  Permutation o o' ->
  destructure o = Some p ->
  dispatch p = Normal (path, pushed) ->
  destructure o' = Some p /\
  pushed ++ commonQueryParams p = declaredOrder p /\
  resolveUrl p
  = Normal (baseUrlOf (cmsUrl p) +:+ path +:+ queryString (declaredOrder p)).
Proof.
  intros Hnd Hperm Hdes Hd. repeat apply conj.
  - now rewrite <- (destructure_permutation _ _ Hnd Hperm).
  - exact (dispatch_declared_order _ _ _ Hd).
  - now rewrite (resolve_of_dispatch _ _ _ Hd), (dispatch_declared_order _ _ _ Hd).
Qed.

Lemma C6_query_order_is_declaration_order_witness :
  destructure Sample.byUrlSuppliedBackwards = Some Sample.byUrl /\
  resolveUrl Sample.byUrl
  = Normal ("https://host.example/api/episerver/v3.0/content"
            +:+ "?contentUrl=https%3A%2F%2Fsite.example%2Fen%2Fstart%20page"
            +:+ "&expand=*&select=name%2Curl").
Proof.
  assert (Hnd : List.NoDup (List.map propertyName Sample.byUrlSupplied)).
  { cbn. repeat constructor; cbn; intuition discriminate. }
  destruct (C6_query_order_is_declaration_order
              Sample.byUrlSupplied Sample.byUrlSuppliedBackwards Sample.byUrl
              "/api/episerver/v3.0/content"
              ["contentUrl=https%3A%2F%2Fsite.example%2Fen%2Fstart%20page"]
              Hnd (Permutation_rev Sample.byUrlSupplied) eq_refl eq_refl)
    as (Hdes & _ & Hurl).
  split; [exact Hdes|exact Hurl].
Defined.

(** ** Characters of the query string *)

Lemma all_app P s t : Str.all P (s +:+ t) = Str.all P s && Str.all P t.
Proof.
  induction s as [|a s IH]; [reflexivity|].
  rewrite append_cons. cbn [Str.all]. now rewrite IH, andb_assoc.
Qed.

Lemma all_substring P n m s :
  Str.all P s = true -> Str.all P (String.substring n m s) = true.
Proof.
  revert n m. induction s as [|a s IH]; intros n m Hs.
  - destruct n, m; reflexivity.
  - cbn [Str.all] in Hs. apply andb_true_iff in Hs as [Ha Hs].
    destruct n as [|n]; [destruct m as [|m]|]; cbn [String.substring Str.all].
    + reflexivity.
    + now rewrite Ha, IH.
    + now apply IH.
Qed.

Lemma all_zeros P n : P "0"%char = true -> Str.all P (Str.zeros n) = true.
Proof.
  intros H0. unfold Str.zeros. induction n as [|n IH]; [reflexivity|].
  cbn. now rewrite H0, IH.
Qed.

Lemma all_uint P u :
  Str.all P "0123456789" = true -> Str.all P (NilEmpty.string_of_uint u) = true.
Proof.
  intros Hd. cbn [Str.all] in Hd.
  repeat (apply andb_true_iff in Hd as [? Hd]).
  induction u; cbn [NilEmpty.string_of_uint Str.all]; try reflexivity;
    rewrite IHu, andb_true_r; assumption.
Qed.

Lemma all_digitsOfN P e :
  Str.all P "0123456789" = true -> Str.all P (digitsOfN e) = true.
Proof.
  intros Hd. unfold digitsOfN, NilZero.string_of_uint.
  destruct (N.to_uint e) eqn:E; try (rewrite <- E; now apply all_uint).
  cbn [Str.all] in *. now apply andb_true_iff in Hd as [-> _].
Qed.

Lemma all_finiteToString P s n :
  Str.all P "0123456789.e-" = true ->
  (21 < n -> P "+"%char = true) ->
  Str.all P (finiteToString s n) = true.
Proof.
  intros Hc Hplus.
  assert (Hd : Str.all P "0123456789" = true).
  { cbn [Str.all] in *. repeat (apply andb_true_iff in Hc as [-> Hc]). reflexivity. }
  assert (H0 : P "0"%char = true).
  { cbn [Str.all] in Hd. now apply andb_true_iff in Hd as [-> _]. }
  assert (Hdot : P "."%char = true /\ P "e"%char = true /\ P "-"%char = true).
  { cbn [Str.all] in Hc. repeat (apply andb_true_iff in Hc as [? Hc]). auto. }
  destruct Hdot as (Hdot & He & Hminus).
  pose proof (all_uint P (Pos.to_uint s) Hd) as Hds. fold (digitsOfPos s) in Hds.
  unfold finiteToString.
  destruct ((-5 <=? n) && (n <=? 21)) eqn:Hrange.
  - destruct (Z.of_nat (String.length (digitsOfPos s)) <=? n).
    + now rewrite all_app, Hds, all_zeros.
    + destruct (0 <? n).
      * rewrite !all_app, !all_substring by exact Hds. cbn [Str.all].
        now rewrite Hdot.
      * rewrite !all_app, all_zeros, Hds by exact H0. cbn [Str.all].
        now rewrite H0, Hdot.
  - assert (Hsign : Str.all P (if 0 <=? n - 1 then "+" else "-") = true).
    { destruct (Z.leb_spec 0 (n - 1)) as [Hpos|Hneg]; cbn [Str.all].
      - rewrite Hplus; [reflexivity|].
        apply andb_false_iff in Hrange as [Hr|Hr]; apply Z.leb_gt in Hr; lia.
      - now rewrite Hminus. }
    pose proof (all_digitsOfN P (Z.to_N (Z.abs (n - 1))) Hd) as Hexp.
    destruct (Z.of_nat (String.length (digitsOfPos s)) =? 1).
    + rewrite !all_app, Hds, Hsign, Hexp. cbn [Str.all]. now rewrite He.
    + rewrite !all_app, !all_substring, Hsign, Hexp by exact Hds.
      cbn [Str.all]. now rewrite Hdot, He.
Qed.

Lemma all_numberToString P x :
  Str.all P "0123456789.e-+InfityNa" = true ->
  Str.all P (numberToString x) = true.
Proof.
  intros Hc.
  assert (Hnum : Str.all P "0123456789.e-" = true /\ P "+"%char = true /\
                 Str.all P "Infinity" = true /\ Str.all P "NaN" = true).
  { cbn [Str.all] in *. repeat (apply andb_true_iff in Hc as [? Hc]).
    repeat match goal with H : P _ = true |- _ => rewrite H; clear H end. auto. }
  destruct Hnum as (Hnum & Hplus & Hinf & Hnan).
  assert (Hminus : Str.all P "-" = true).
  { cbn [Str.all] in *. repeat (apply andb_true_iff in Hnum as [? Hnum]).
    repeat match goal with H : P _ = true |- _ => rewrite H; clear H end. auto. }
  destruct x as [|neg|neg|neg s n]; cbn [numberToString].
  - exact Hnan.
  - destruct neg; [rewrite all_app, Hminus|]; exact Hinf.
  - cbn [Str.all] in *. now apply andb_true_iff in Hnum as [-> _].
  - rewrite all_app, all_finiteToString by auto.
    destruct neg; [rewrite Hminus|]; reflexivity.
Qed.

Lemma all_encodeURIComponent s : Str.all encodedChar (encodeURIComponent s) = true.
Proof.
  induction s as [|a s IH]; [reflexivity|].
  cbn [encodeURIComponent]. rewrite all_app, IH, andb_true_r.
  destruct (uriUnreserved a) eqn:Hu.
  - cbn [Str.all]. unfold encodedChar. now rewrite Hu.
  - clear. destruct a as [[] [] [] [] [] [] [] []]; reflexivity.
Qed.

Lemma encodeURIComponent_unreserved s :
  Str.all uriUnreserved s = true -> encodeURIComponent s = s.
Proof.
  induction s as [|a s IH]; [reflexivity|].
  cbn [Str.all encodeURIComponent]. intros Hs.
  apply andb_true_iff in Hs as [-> Hs]. now rewrite IH.
Qed.

Lemma count_app c s t : Str.count c (s +:+ t) = (Str.count c s + Str.count c t)%nat.
Proof.
  induction s as [|a s IH]; [reflexivity|].
  rewrite append_cons. cbn [Str.count]. rewrite IH. lia.
Qed.

Lemma count_absent P c s :
  P c = false -> Str.all P s = true -> Str.count c s = 0%nat.
Proof.
  intros Hc. induction s as [|a s IH]; [reflexivity|].
  cbn [Str.all Str.count]. intros Hs. apply andb_true_iff in Hs as [Ha Hs].
  rewrite (IH Hs). destruct (Ascii.eqb_spec a c) as [->|_]; [congruence|reflexivity].
Qed.

Lemma count_concat c sep (l : list string) :
  (forall entry, In entry l -> Str.count c entry = 0%nat) ->
  Str.count c (String.concat sep l) = (pred (length l) * Str.count c sep)%nat.
Proof.
  induction l as [|x l IH]; [reflexivity|]. intros Hl.
  destruct l as [|y l].
  - cbn. rewrite (Hl x); [reflexivity|now left].
  - change (String.concat sep (x :: y :: l))
      with (x +:+ sep +:+ String.concat sep (y :: l)).
    rewrite !count_app, IH, (Hl x); [|now left|intros e He; apply Hl; now right].
    cbn [length pred]. lia.
Qed.

(** Neither ['&'] nor ['?'] occurs in an entry of the query string. *)
Lemma declaredOrder_entries p c entry :
  c = "&"%char \/ c = "?"%char ->
  In entry (declaredOrder p) -> Str.count c entry = 0%nat.
Proof.
  intros Hc Hin.
  assert (Henc : forall s, Str.count c (encodeURIComponent s) = 0%nat).
  { intros s. apply (count_absent encodedChar); [|apply all_encodeURIComponent].
    destruct Hc as [-> | ->]; reflexivity. }
  assert (Hnum : forall x, Str.count c (numberToString x) = 0%nat).
  { intros x. apply (count_absent (isNot c)).
    - unfold isNot. now rewrite Ascii.eqb_refl.
    - apply all_numberToString. destruct Hc as [-> | ->]; reflexivity. }
  unfold declaredOrder, pushIf in Hin.
  repeat (apply in_app_or in Hin as [Hin|Hin]);
    match type of Hin with
    | In _ (if ?b then _ else _) => destruct b; [|contradiction]
    end;
    destruct Hin as [<-|[]]; rewrite count_app.
  - rewrite Henc. destruct Hc as [-> | ->]; reflexivity.
  - unfold topTpl. destruct (top p) as [x|].
    + rewrite Hnum. destruct Hc as [-> | ->]; reflexivity.
    + destruct Hc as [-> | ->]; reflexivity.
  - rewrite Henc. destruct Hc as [-> | ->]; reflexivity.
  - rewrite Henc. destruct Hc as [-> | ->]; reflexivity.
Qed.

Lemma queryString_separators p :
  Str.count "?" (queryString (declaredOrder p))
  = (if declaredOrder p is [] then 0 else 1)%nat /\
  Str.count "&" (queryString (declaredOrder p)) = pred (length (declaredOrder p)).
Proof.
  unfold queryString.
  destruct (declaredOrder p) as [|x l] eqn:Hq; [split; reflexivity|].
  cbn [length Nat.ltb Nat.leb]. rewrite <- Hq. rewrite !count_app, !count_concat.
  - rewrite Hq. cbn. split; lia.
  - intros e He. eapply declaredOrder_entries; [now left|exact He].
  - intros e He. eapply declaredOrder_entries; [now right|exact He].
Qed.

(** The text of a number below [1e21] in magnitude has no character that
    [encodeURIComponent] would change. *)
Lemma numberToString_encoded x :
  (forall negative s n, x = Finite negative s n -> n <= 21) ->
  encodeURIComponent (numberToString x) = numberToString x.
Proof.
  intros Hsmall. apply encodeURIComponent_unreserved.
  destruct x as [|neg|neg|neg s n]; cbn [numberToString].
  - reflexivity.
  - destruct neg; reflexivity.
  - reflexivity.
  - rewrite all_app, all_finiteToString.
    + destruct neg; reflexivity.
    + reflexivity.
    + intros Hbig. specialize (Hsmall neg s n eq_refl). lia.
Qed.

(** C7 fails as stated: [top] is written into the URL without
    [encodeURIComponent].  For [top = 1e21] the entry is [top=1e+21], which
    is not the percent-encoding [1e%2B21] of the value. *)
Lemma C7_top_is_not_percent_encoded :
  resolveUrl Sample.hugeTop
  = Normal "https://host.example/api/episerver/v3.0/content/5/children?top=1e+21" /\
  dispatch Sample.hugeTop
  = Normal ("/api/episerver/v3.0/content/5/children", ["top=1e+21"]) /\
  declaredOrder Sample.hugeTop = ["top=1e+21"] /\
  encodeURIComponent "1e+21" = "1e%2B21" /\
  ~ (forall entry, In entry (declaredOrder Sample.hugeTop) ->
                   percentEncoded Sample.hugeTop entry).
Proof.
  repeat apply conj; [reflexivity|reflexivity|reflexivity|reflexivity|].
  intros Hall. destruct (Hall "top=1e+21" (or_introl eq_refl))
    as (name & raw & Hin & Heq).
  cbn in Hin. destruct Hin as [Hin|[Hin|[Hin|[Hin|[]]]]];
    inversion Hin; subst; vm_compute in Heq; discriminate.
Qed.

(** C7, amended.  The values of [contentUrl], [expand] and [select] are
    percent-encoded one by one with [encodeURIComponent]; the value of
    [top] is the text of the number, written without encoding (the same
    text as its encoding for every number below [1e21] in magnitude).  The
    entries are joined with ['&'], which occurs nowhere else in the query
    string, and ['?'] follows the path iff there is at least one entry.
    [cmsContentManifest] writes [includeSystemTypes] as [true] or [false],
    after a ['?'] that is there iff the parameter was supplied. *)
Theorem C7_query_string_encoding (p : Parameters) (path : string)
    (pushed : list string) :
  dispatch p = Normal (path, pushed) ->
  resolveUrl p
  = Normal (baseUrlOf (cmsUrl p) +:+ path +:+ queryString (declaredOrder p)) /\
  (declaredOrder p = [] -> queryString (declaredOrder p) = "") /\
  (declaredOrder p <> [] ->
   queryString (declaredOrder p) = "?" +:+ String.concat "&" (declaredOrder p)) /\
  Str.count "?" (queryString (declaredOrder p))
  = (if declaredOrder p is [] then 0 else 1)%nat /\
  Str.count "&" (queryString (declaredOrder p)) = pred (length (declaredOrder p)) /\
  (forall entry, In entry (declaredOrder p) ->
     entry = "top=" +:+ topTpl (top p) \/
     entry = "contentUrl=" +:+ encodeURIComponent (tpl (contentUrl p)) \/
     entry = "expand=" +:+ encodeURIComponent (tpl (expand p)) \/
     entry = "select=" +:+ encodeURIComponent (tpl (select p))) /\
  ((forall negative s n, top p = Some (Finite negative s n) -> n <= 21) ->
   forall entry, In entry (declaredOrder p) -> percentEncoded p entry) /\
  (forall q,
     ContentManifest.resolveUrl q
     = baseUrlOf (ContentManifest.cmsUrl q)
       +:+ "/api/episerver/v3.0/contentmanifest"
       +:+ match ContentManifest.includeSystemTypes q with
           | Some b => "?includeSystemTypes="
                       +:+ encodeURIComponent (ContentManifest.boolTpl b)
           | None => ""
           end).
Proof.
  intros Hd.
  assert (Hentries : forall entry, In entry (declaredOrder p) ->
     entry = "top=" +:+ topTpl (top p) \/
     entry = "contentUrl=" +:+ encodeURIComponent (tpl (contentUrl p)) \/
     entry = "expand=" +:+ encodeURIComponent (tpl (expand p)) \/
     entry = "select=" +:+ encodeURIComponent (tpl (select p))).
  { intros entry Hin. unfold declaredOrder, pushIf in Hin.
    repeat (apply in_app_or in Hin as [Hin|Hin]);
      match type of Hin with
      | In _ (if ?b then _ else _) => destruct b; [|contradiction]
      end;
      destruct Hin as [<-|[]]; auto. }
  repeat apply conj.
  - now rewrite (resolve_of_dispatch _ _ _ Hd), (dispatch_declared_order _ _ _ Hd).
  - now intros ->.
  - intros Hne. unfold queryString. destruct (declaredOrder p); [congruence|reflexivity].
  - exact (proj1 (queryString_separators p)).
  - exact (proj2 (queryString_separators p)).
  - exact Hentries.
  - intros Hsmall entry Hin. unfold percentEncoded, suppliedValues.
    destruct (Hentries entry Hin) as [->|[->|[->| ->]]].
    + exists "top", (topTpl (top p)). split; [cbn; auto|].
      destruct (top p) as [x|]; [|reflexivity]. cbn [topTpl].
      rewrite (numberToString_encoded x); [reflexivity|].
      intros negative s n ->. now apply (Hsmall negative s n).
    + exists "contentUrl", (tpl (contentUrl p)). split; [cbn; auto|reflexivity].
    + exists "expand", (tpl (expand p)). split; [cbn; auto|reflexivity].
    + exists "select", (tpl (select p)). split; [cbn; auto 6|reflexivity].
  - intros q. unfold ContentManifest.resolveUrl.
    destruct (ContentManifest.includeSystemTypes q) as [[]|]; reflexivity.
Qed.

Lemma C7_query_string_encoding_witness :
  resolveUrl Sample.byUrl
  = Normal ("https://host.example/api/episerver/v3.0/content"
            +:+ "?contentUrl=https%3A%2F%2Fsite.example%2Fen%2Fstart%20page"
            +:+ "&expand=*&select=name%2Curl") /\
  Str.count "&" (queryString (declaredOrder Sample.byUrl)) = 2%nat /\
  Str.count "?" (queryString (declaredOrder Sample.byUrl)) = 1%nat.
Proof.
  destruct (C7_query_string_encoding Sample.byUrl
              "/api/episerver/v3.0/content"
              ["contentUrl=https%3A%2F%2Fsite.example%2Fen%2Fstart%20page"]
              eq_refl)
    as (Hurl & _ & _ & Hq & Hamp & _).
  repeat apply conj; [exact Hurl|exact Hamp|exact Hq].
Defined.

(** * Further properties of the adapters *)

(** ** The base URL, again *)

Lemma endsWithChar_split c s :
  Str.endsWithChar c s = true -> s = Str.dropLast s +:+ String c "".
Proof.
  induction s as [|a s IH]; [discriminate|].
  destruct s as [|b t].
  - cbn. intros Ha. apply Ascii.eqb_eq in Ha. now subst.
  - intros He. change (Str.endsWithChar c (String b t) = true) in He.
    change (Str.dropLast (String a (String b t)))
      with (String a (Str.dropLast (String b t))).
    rewrite append_cons. f_equal. exact (IH He).
Qed.

Lemma length_append s t :
  String.length (s +:+ t) = (String.length s + String.length t)%nat.
Proof.
  induction s as [|a s IH]; [reflexivity|].
  rewrite append_cons. cbn [String.length]. now rewrite IH.
Qed.

(** X1.  The base URL is the given URL or the given URL without its last
    character, a ['/']: writing the slash back restores the input, and
    nothing but one final slash is ever removed. *)
Theorem baseUrlOf_restores (cmsUrl : string) :
  cmsUrl = baseUrlOf cmsUrl +:+ (if Str.endsWithChar "/" cmsUrl then "/" else "") /\
  (String.length (baseUrlOf cmsUrl)
   = String.length cmsUrl - (if Str.endsWithChar "/" cmsUrl then 1 else 0))%nat /\
  (baseUrlOf cmsUrl = cmsUrl <-> Str.endsWithChar "/" cmsUrl = false).
Proof.
  unfold baseUrlOf. destruct (Str.endsWithChar "/" cmsUrl) eqn:He.
  - pose proof (endsWithChar_split _ _ He) as Hs.
    assert (Hlen : String.length cmsUrl
                   = (String.length (Str.dropLast cmsUrl) + 1)%nat).
    { rewrite Hs at 1. now rewrite length_append. }
    split; [|split].
    + exact Hs.
    + rewrite Hlen. lia.
    + split; [intros Heq; exfalso; rewrite Heq in Hlen; lia|discriminate].
  - split; [|split].
    + now rewrite append_empty_r.
    + lia.
    + tauto.
Qed.

(** ** Which responses count as JSON *)




Example problemJson_is_text :
  declaresJson Scenario.problemJson = false.
Proof. reflexivity. Qed.

(** ** What the decoded body can be *)

(** X3.  When decoding completes, the body delivered a text [s] and the result
    is either the JSON value [JSON.parse] gives for [s], the response
    having declared JSON, or [s] itself; raw text for a response that
    declared JSON occurs only when the response has no body and
    [JSON.parse] rejects the empty text. *)
Theorem decodeBody_sound {platform : Platform}
    (r : Response.t) (req : Request.t) (b : Decoded Json) (w : World) :
  decodeBody r (afterFetch req) = (Normal b, w) ->
  exists s,
    bodyText r = Some s /\
    fetched w = [req] /\
    match b with
    | ParsedJson v => declaresJson r = true /\ JSON_parse s = inl v
    | RawText t =>
        t = s /\
        (declaresJson r = false \/
         (Response.body r = NullBody /\ exists m, JSON_parse "" = inr m))
    end.
Proof.
  unfold decodeBody, tryCatch, json, text, bind, consumeBody, bodyText, ret, throw.
  destruct (declaresJson r); destruct (Response.body r) as [|s|e];
    cbn [afterFetch bodyUsed fetched]; try discriminate.
  - destruct (JSON_parse "") as [v|m] eqn:Hp; intros [= <- <-]; exists "".
    + auto.
    + repeat split; eauto.
  - destruct (JSON_parse s) as [v|m] eqn:Hp; cbn [bodyUsed]; [|discriminate].
    intros [= <- <-]. exists s. auto.
  - intros [= <- <-]. exists "". auto.
  - intros [= <- <-]. exists s. auto.
Qed.

Lemma decodeBody_sound_witness :
  decodeBody (platform := Sample.network (Responds Scenario.noContent))
    Scenario.noContent (afterFetch (requestOf "u" []))
  = (Normal (RawText ""), afterFetch (requestOf "u" [])) /\
  bodyText Scenario.noContent = Some "".
Proof.
  split; [reflexivity|].
  destruct (decodeBody_sound
              (platform := Sample.network (Responds Scenario.noContent))
              Scenario.noContent (requestOf "u" []) (RawText "")
              (afterFetch (requestOf "u" [])) eq_refl) as (s & Hs & _ & -> & _).
  exact Hs.
Defined.

(** ** The header mapping of a response with distinct names *)

Lemma collectHeaders_absent (hs : list (string * string)) k :
  ~ In k (List.map fst hs) -> collectHeaders hs !! k = None.
Proof.
  intros Hk. destruct (collectHeaders hs !! k) as [v|] eqn:Hm; [|reflexivity].
  exfalso. apply Hk. apply collectHeaders_bound in Hm as [_ Hl].
  apply lastValue_is_bound in Hl. change k with (fst (k, v)). now apply in_map.
Qed.

Lemma NoDup_snoc {A} (l : list A) x :
  List.NoDup (l ++ [x]) -> List.NoDup l /\ ~ In x l.
Proof.
  intros Hnd. apply NoDup_remove in Hnd. rewrite app_nil_r in Hnd. exact Hnd.
Qed.

(** X4.  When no header name repeats, the mapping holds exactly the headers
    of the response that are not named [__proto__]: a name maps to a value
    iff the response has that header and the name is not [__proto__], and
    there are as many entries as such headers. *)
Theorem collectHeaders_distinct_names (hs : list (string * string)) :
  List.NoDup (List.map fst hs) ->
  (forall k v, collectHeaders hs !! k = Some v <-> In (k, v) hs /\ k <> "__proto__") /\
  size (collectHeaders hs)
  = length (List.filter (fun kv => negb (String.eqb (fst kv) "__proto__")) hs).
Proof.
  induction hs as [|[k' v'] hs IH] using rev_ind.
  - intros _. split; [|reflexivity]. intros k v. cbn. split; [discriminate|tauto].
  - rewrite map_app. cbn [List.map fst]. intros Hnd.
    apply NoDup_snoc in Hnd as [Hnd Hfresh].
    destruct (IH Hnd) as [Hlook Hsize].
    rewrite collectHeaders_snoc, List.filter_app, length_app. unfold assignProperty.
    cbn [List.filter fst]. split.
    + intros k v. rewrite in_app_iff. cbn [In].
      destruct (String.eqb_spec k' "__proto__") as [->|Hproto].
      * rewrite Hlook. split; [tauto|].
        intros [[Hin|[[= <- _]|[]]] Hk]; [tauto|congruence].
      * destruct (String.eqb_spec k' k) as [->|Hne].
        -- rewrite lookup_insert_eq. split.
           ++ intros [= ->]. auto.
           ++ intros [[Hin|[[= ->]|[]]] _]; [|reflexivity].
              exfalso. apply Hfresh. change k with (fst (k, v)). now apply in_map.
        -- rewrite lookup_insert_ne by exact Hne. rewrite Hlook. split; [tauto|].
           intros [[Hin|[[= Hk _]|[]]] Hp]; [tauto|congruence].
    + destruct (String.eqb_spec k' "__proto__") as [_|Hproto]; cbn [negb length].
      * lia.
      * rewrite map_size_insert_None by now apply collectHeaders_absent.
        rewrite Hsize. lia.
Qed.

Lemma collectHeaders_distinct_names_witness :
  collectHeaders (Response.headers Sample.protoHeader) !! "content-type"
  = Some "text/plain" /\
  collectHeaders (Response.headers Sample.protoHeader) !! "__proto__" = None /\
  size (collectHeaders (Response.headers Sample.protoHeader)) = 1%nat.
Proof.
  assert (Hnd : List.NoDup (List.map fst (Response.headers Sample.protoHeader))).
  { cbn. repeat constructor; cbn; intuition discriminate. }
  destruct (collectHeaders_distinct_names _ Hnd) as [Hlook Hsize].
  repeat apply conj.
  - apply Hlook. split; [cbn; auto|discriminate].
  - destruct (collectHeaders (Response.headers Sample.protoHeader) !! "__proto__")
      as [v|] eqn:Hm; [|reflexivity].
    apply Hlook in Hm as [_ Hne]. now elim Hne.
  - exact Hsize.
Defined.

(** ** The request an adapter sends *)

Section RequestFacts.
Context {platform : Platform}.

Lemma decodeBody_fetched r w : fetched (snd (decodeBody r w)) = fetched w.
Proof.
  unfold decodeBody, tryCatch, json, text, bind, consumeBody, ret, throw.
  destruct (declaresJson r), (Response.body r) as [|s|e], (bodyUsed w) eqn:Hu;
    cbn [fst snd fetched bodyUsed];
    repeat match goal with
           | |- context [JSON_parse ?s] => destruct (JSON_parse s)
           end;
    cbn [fst snd fetched bodyUsed]; rewrite ?Hu; reflexivity.
Qed.

Lemma exchange_fetched fullUrl hs :
  fetched (snd (exchange fullUrl hs initialWorld)) = [requestOf fullUrl hs].
Proof.
  unfold exchange, bind, fetchCall. fold (requestOf fullUrl hs).
  destruct (fetch (requestOf fullUrl hs)) as [r|e]; [|reflexivity].
  cbn [fetched initialWorld app]. fold (afterFetch (requestOf fullUrl hs)).
  pose proof (decodeBody_fetched r (afterFetch (requestOf fullUrl hs))) as Hd.
  destruct (decodeBody r (afterFetch (requestOf fullUrl hs))) as [[b|e] w'].
  - destruct (negb (Response.ok r)); exact Hd.
  - exact Hd.
Qed.

Lemma guarded_fetched label fullUrl hs :
  fetched (snd (tryCatch (exchange fullUrl hs) (rethrow label) initialWorld))
  = [requestOf fullUrl hs].
Proof.
  pose proof (exchange_fetched fullUrl hs) as He. unfold tryCatch.
  destruct (exchange fullUrl hs initialWorld) as [[env|e] w']; exact He.
Qed.

Lemma guarded_thrown label fullUrl hs e w :
  tryCatch (exchange fullUrl hs) (rethrow label) initialWorld = (Abrupt e, w) ->
  exists cause, e = ErrorObject (label +:+ ": " +:+ messageOf cause).
Proof.
  unfold tryCatch.
  destruct (exchange fullUrl hs initialWorld) as [[env|cause] w']; [discriminate|].
  unfold rethrow, throw. intros [= <- _]. now exists cause.
Qed.

Lemma types_run p :
  run (ContentTypes.cmsContentTypes p)
  = tryCatch (exchange (ContentTypes.resolveUrl p) (ContentTypes.requestHeaders p))
             (rethrow ContentTypes.label) initialWorld.
Proof. reflexivity. Qed.

End RequestFacts.

Lemma preflightOk_dispatch p :
  (preflightOk p = true -> exists path pushed, dispatch p = Normal (path, pushed)) /\
  (preflightOk p = false -> exists e, dispatch p = Abrupt e).
Proof.
  unfold preflightOk, dispatch.
  case_operation p; try (exfalso; congruence);
    cbn [andb orb];
    repeat match goal with
           | |- context [truthy ?o] => destruct (truthy o)
           end;
    cbn [andb orb negb]; split; intros Hp; try discriminate; eauto.
Qed.

(** X5.  [cmsContentTypes] and [cmsContentManifest] hand exactly one request to
    [fetch], whatever happens afterwards: a [GET] of the resolved URL that
    asks for JSON.  It carries [Authorization: Bearer <token>] iff
    [authToken] is truthy; without a token, or with the empty string as
    token, no [Authorization] header is sent. *)
Theorem anonymous_adapters_send_one_request {platform : Platform}
    (p : ContentTypes.Parameters) (q : ContentManifest.Parameters) :
  fetched (snd (run (ContentTypes.cmsContentTypes p)))
  = [requestOf (ContentTypes.resolveUrl p) (ContentTypes.requestHeaders p)] /\
  fetched (snd (run (ContentManifest.cmsContentManifest q)))
  = [requestOf (ContentManifest.resolveUrl q) (ContentManifest.requestHeaders q)] /\
  headerValue "Accept" (ContentTypes.requestHeaders p) = Some "application/json" /\
  headerValue "Accept" (ContentManifest.requestHeaders q) = Some "application/json" /\
  headerValue "Authorization" (ContentTypes.requestHeaders p)
  = (if truthy (ContentTypes.authToken p)
     then Some ("Bearer " +:+ tpl (ContentTypes.authToken p)) else None) /\
  headerValue "Authorization" (ContentManifest.requestHeaders q)
  = (if truthy (ContentManifest.authToken q)
     then Some ("Bearer " +:+ tpl (ContentManifest.authToken q)) else None).
Proof.
  repeat apply conj.
  - rewrite types_run. apply guarded_fetched.
  - rewrite manifest_run. apply guarded_fetched.
  - reflexivity.
  - reflexivity.
  - unfold ContentTypes.requestHeaders.
    destruct (truthy (ContentTypes.authToken p)); reflexivity.
  - unfold ContentManifest.requestHeaders.
    destruct (truthy (ContentManifest.authToken q)); reflexivity.
Qed.

(** X6.  [cmsContentDelivery] hands no request to [fetch] unless the
    operation is known and its identifying parameter is truthy, and
    whenever the request URL is built it hands exactly one request to
    [fetch], for that URL, whatever happens afterwards.  The request always
    carries [Authorization: Bearer <authToken>], also for an empty token,
    and [Accept-Language] iff [language] is truthy. *)
Theorem delivery_sends_one_request_when_resolved {platform : Platform}
    (p : Parameters) :
  (preflightOk p = false ->
   exists e, run (cmsContentDelivery p) = (Abrupt e, initialWorld)) /\
  (fetched (snd (run (cmsContentDelivery p))) <> [] -> preflightOk p = true) /\
  (forall fullUrl,
     resolveUrl p = Normal fullUrl ->
     preflightOk p = true /\
     fetched (snd (run (cmsContentDelivery p)))
     = [requestOf fullUrl (requestHeaders p)]) /\
  headerValue "Authorization" (requestHeaders p) = Some ("Bearer " +:+ authToken p) /\
  headerValue "Accept-Language" (requestHeaders p)
  = (if truthy (language p) then Some (tpl (language p)) else None).
Proof.
  destruct (preflightOk_dispatch p) as [Hok Hfail].
  assert (Hnone : preflightOk p = false ->
                  exists e, run (cmsContentDelivery p) = (Abrupt e, initialWorld)).
  { intros Hp. destruct (Hfail Hp) as [e He]. exists e. now apply delivery_preflight. }
  repeat apply conj.
  - exact Hnone.
  - intros Hsent. destruct (preflightOk p); [reflexivity|].
    destruct (Hnone eq_refl) as [e He]. rewrite He in Hsent. now elim Hsent.
  - intros fullUrl Hurl. split.
    + destruct (preflightOk p); [reflexivity|].
      destruct (Hfail eq_refl) as [e He].
      rewrite (resolve_of_dispatch_abrupt _ _ He) in Hurl. discriminate.
    + rewrite delivery_run, Hurl. apply guarded_fetched.
  - reflexivity.
  - unfold requestHeaders. destruct (truthy (language p)); reflexivity.
Qed.

Lemma delivery_sends_one_request_when_resolved_witness :
  fetched (snd (run (cmsContentDelivery
                       (platform := Sample.network (Responds Sample.badGateway))
                       Scenario.allSitesSwedish)))
  = [requestOf "https://host.example/api/episerver/v3.0/site"
       [("Accept", "application/json"); ("Content-Type", "application/json");
        ("Authorization", "Bearer t0ken"); ("Accept-Language", "sv")]].
Proof.
  destruct (delivery_sends_one_request_when_resolved
              (platform := Sample.network (Responds Sample.badGateway))
              Scenario.allSitesSwedish) as (_ & _ & Hone & _).
  exact (proj2 (Hone _ eq_refl)).
Defined.

(** ** Telling the errors apart *)

Lemma dispatch_abrupt_message p e :
  dispatch p = Abrupt e ->
  exists msg, e = ErrorObject msg /\
              String.prefix "CMS Content Delivery API call failed: " msg = false.
Proof.
  unfold dispatch. case_operation p;
    repeat match goal with
           | |- context [if ?c then _ else _] => destruct c
           end;
    intros Hd; inversion Hd; subst; eexists; split; reflexivity.
Qed.

(** X7.  Whatever [cmsContentDelivery] throws is an [Error] object, and its
    message starts with [CMS Content Delivery API call failed: ] iff a
    request was handed to [fetch]: a caller can tell a rejected call from a
    failed exchange by the message alone. *)
Theorem delivery_error_attribution {platform : Platform}
    (p : Parameters) (e : Thrown) (w : World) :
  run (cmsContentDelivery p) = (Abrupt e, w) ->
  exists msg,
    e = ErrorObject msg /\
    (String.prefix "CMS Content Delivery API call failed: " msg = true
     <-> fetched w <> []).
Proof.
  rewrite delivery_run.
  destruct (resolveUrl p) as [fullUrl|e0] eqn:Hurl.
  - intros Hrun.
    pose proof (guarded_fetched label fullUrl (requestHeaders p)) as Hf.
    rewrite Hrun in Hf. cbn [snd] in Hf.
    destruct (guarded_thrown _ _ _ _ _ Hrun) as [cause ->].
    eexists. split; [reflexivity|]. split.
    + intros _. now rewrite Hf.
    + intros _. change (": " +:+ messageOf cause) with (":" +:+ " " +:+ messageOf cause).
      rewrite <- !append_assoc. apply prefix_app.
  - intros [= <- <-]. unfold resolveUrl in Hurl.
    destruct (dispatch p) as [[path pushed]|e1] eqn:Hd; [discriminate|].
    injection Hurl as <-.
    destruct (dispatch_abrupt_message _ _ Hd) as (msg & -> & Hpre).
    exists msg. split; [reflexivity|]. rewrite Hpre. cbn. split; [discriminate|tauto].
Qed.

Lemma delivery_error_attribution_witness :
  exists msg,
    run (cmsContentDelivery
           (platform := Sample.network (Rejects (NonError "offline")))
           Sample.byReference)
    = (Abrupt (ErrorObject msg),
       afterFetch (requestOf "https://host.example/api/episerver/v3.0/content/5"
                             (requestHeaders Sample.byReference))) /\
    String.prefix "CMS Content Delivery API call failed: " msg = true.
Proof.
  destruct (delivery_error_attribution
              (platform := Sample.network (Rejects (NonError "offline")))
              Sample.byReference _ _ eq_refl) as (msg & Hmsg & Hiff).
  exists msg. injection Hmsg as <-. split; [reflexivity|].
  apply Hiff. discriminate.
Defined.

(** ** [cmsContentTypes] and [cmsContentManifest]: outcomes *)

(** X8.  For a response that was fetched and decoded, [cmsContentTypes] and
    [cmsContentManifest] return an envelope with the status and status text
    of the response, the resolved URL, [success] iff the status is in
    200..299, [data] and [headers] on success only and [error] otherwise. *)
Theorem anonymous_adapters_envelope {platform : Platform}
    (fullUrl : string) (hs : list (string * string)) (r : Response.t)
    (b : Decoded Json) (w : World) :
  fetch (requestOf fullUrl hs) = Responds r ->
  decodeBody r (afterFetch (requestOf fullUrl hs)) = (Normal b, w) ->
  exists env,
    (forall p, ContentTypes.resolveUrl p = fullUrl ->
               ContentTypes.requestHeaders p = hs ->
               run (ContentTypes.cmsContentTypes p) = (Normal env, w)) /\
    (forall q, ContentManifest.resolveUrl q = fullUrl ->
               ContentManifest.requestHeaders q = hs ->
               run (ContentManifest.cmsContentManifest q) = (Normal env, w)) /\
    (Envelope.success env = true <-> 200 <= Response.status r <= 299) /\
    Envelope.status env = Response.status r /\
    Envelope.statusText env = Response.statusText r /\
    Envelope.url env = fullUrl /\
    (Envelope.success env = true ->
     Envelope.data env = Some b /\ Envelope.error env = None /\
     Envelope.headers env = Some (collectHeaders (Response.headers r))) /\
    (Envelope.success env = false ->
     Envelope.error env = Some b /\ Envelope.data env = None /\
     Envelope.headers env = None).
Proof.
  intros Hf Hd.
  destruct (exchange_returns _ _ _ _ _ Hf Hd)
    as (env & Hex & Hs & Hst & Htxt & Hdata & Herr & Hu & Hh).
  exists env. rewrite Hs, Hdata, Herr, Hh, <- ok_iff_2xx.
  split; [|split; [|split; [|split; [|split; [|split; [|split]]]]]];
    try assumption; try tauto.
  - intros p Hurl Hhs. rewrite types_run, Hurl, Hhs. now apply guarded_returns.
  - intros q Hurl Hhs. rewrite manifest_run, Hurl, Hhs. now apply guarded_returns.
  - intros ->. auto.
  - intros ->. auto.
Qed.

Lemma anonymous_adapters_envelope_witness :
  exists env,
    run (ContentTypes.cmsContentTypes
           (platform := Sample.network (Responds Scenario.problemJson))
           Scenario.oneType)
    = (Normal env,
       afterRead (requestOf
         "https://host.example/api/episerver/v3.0/contenttypes/StandardPage"
         (ContentTypes.requestHeaders Scenario.oneType))) /\
    Envelope.success env = false /\
    Envelope.error env = Some (RawText "null") /\
    Envelope.headers env = None.
Proof.
  destruct (anonymous_adapters_envelope
              (platform := Sample.network (Responds Scenario.problemJson))
              "https://host.example/api/episerver/v3.0/contenttypes/StandardPage"
              (ContentTypes.requestHeaders Scenario.oneType)
              Scenario.problemJson (RawText "null") _ eq_refl eq_refl)
    as (env & Hrun & _ & Hiff & _ & _ & _ & _ & Hfail).
  assert (Hs : Envelope.success env = false).
  { destruct (Envelope.success env); [|reflexivity].
    assert (Hr : 200 <= Response.status Scenario.problemJson <= 299)
      by now apply Hiff.
    cbn in Hr. lia. }
  exists env. destruct (Hfail Hs) as (He & _ & Hh).
  repeat apply conj; [exact (Hrun Scenario.oneType eq_refl eq_refl)| | |]; assumption.
Defined.

(** X9.  When [fetch] throws, or decoding the response throws,
    [cmsContentTypes] throws one [Error] whose message is
    [CMS Content Types API call failed: ] followed by the message of the
    exception; a thrown value that is no [Error] contributes its string
    form. *)
Theorem types_failures_rethrown_with_label {platform : Platform}
    (p : ContentTypes.Parameters) (e : Thrown) (w : World) :
  (fetch (requestOf (ContentTypes.resolveUrl p) (ContentTypes.requestHeaders p))
   = Rejects e /\
   w = afterFetch (requestOf (ContentTypes.resolveUrl p)
                             (ContentTypes.requestHeaders p))) \/
  (exists r,
     fetch (requestOf (ContentTypes.resolveUrl p) (ContentTypes.requestHeaders p))
     = Responds r /\
     decodeBody r (afterFetch (requestOf (ContentTypes.resolveUrl p)
                                         (ContentTypes.requestHeaders p)))
     = (Abrupt e, w)) ->
  run (ContentTypes.cmsContentTypes p)
  = (Abrupt (ErrorObject ("CMS Content Types API call failed: " +:+ messageOf e)), w).
Proof.
  rewrite types_run. intros [[Hf ->]|(r & Hf & Hd)].
  - exact (guarded_rejects _ _ _ _ Hf).
  - exact (guarded_decode_throws _ _ _ _ _ _ Hf Hd).
Qed.

Lemma types_failures_rethrown_with_label_witness :
  run (ContentTypes.cmsContentTypes
         (platform := Sample.network (Rejects (NonError "offline")))
         Scenario.oneType)
  = (Abrupt (ErrorObject "CMS Content Types API call failed: offline"),
     afterFetch (requestOf
       "https://host.example/api/episerver/v3.0/contenttypes/StandardPage"
       (ContentTypes.requestHeaders Scenario.oneType))).
Proof.
  exact (types_failures_rethrown_with_label
           (platform := Sample.network (Rejects (NonError "offline")))
           Scenario.oneType _ _ (or_introl (conj eq_refl eq_refl))).
Defined.

(** ** URLs of [cmsContentTypes] and [cmsContentManifest] *)

(** X10.  For an origin given with or without a trailing slash,
    [cmsContentTypes] requests [<origin>/api/episerver/v3.0/contenttypes],
    followed by [/<contentTypeId>] when that is truthy; an empty
    [contentTypeId] lists all types.  [cmsContentManifest] requests
    [<origin>/api/episerver/v3.0/contentmanifest], followed by
    [?includeSystemTypes=] and [true] or [false] when the flag was
    supplied, [false] included. *)
Theorem anonymous_adapters_url (origin : string)
    (p : ContentTypes.Parameters) (q : ContentManifest.Parameters) :
  Str.endsWithChar "/" origin = false ->
  ContentTypes.cmsUrl p = origin \/ ContentTypes.cmsUrl p = origin +:+ "/" ->
  ContentManifest.cmsUrl q = origin \/ ContentManifest.cmsUrl q = origin +:+ "/" ->
  ContentTypes.resolveUrl p
  = origin +:+ "/api/episerver/v3.0/contenttypes"
    +:+ (if truthy (ContentTypes.contentTypeId p)
         then "/" +:+ tpl (ContentTypes.contentTypeId p) else "") /\
  ContentManifest.resolveUrl q
  = origin +:+ "/api/episerver/v3.0/contentmanifest"
    +:+ match ContentManifest.includeSystemTypes q with
        | Some true => "?includeSystemTypes=true"
        | Some false => "?includeSystemTypes=false"
        | None => ""
        end.
Proof.
  intros Hend Hp Hq.
  assert (Hbp : baseUrlOf (ContentTypes.cmsUrl p) = origin).
  { destruct Hp as [->| ->]; [now apply baseUrlOf_plain|apply baseUrlOf_slash]. }
  assert (Hbq : baseUrlOf (ContentManifest.cmsUrl q) = origin).
  { destruct Hq as [->| ->]; [now apply baseUrlOf_plain|apply baseUrlOf_slash]. }
  unfold ContentTypes.resolveUrl, ContentManifest.resolveUrl. rewrite Hbp, Hbq. split.
  - destruct (truthy (ContentTypes.contentTypeId p)); reflexivity.
  - destruct (ContentManifest.includeSystemTypes q) as [[]|]; reflexivity.
Qed.

Lemma anonymous_adapters_url_witness :
  ContentTypes.resolveUrl Scenario.emptyTypeId
  = "https://host.example/api/episerver/v3.0/contenttypes" /\
  ContentManifest.resolveUrl Sample.manifest
  = "https://host.example/api/episerver/v3.0/contentmanifest?includeSystemTypes=true".
Proof.
  exact (anonymous_adapters_url "https://host.example"
           Scenario.emptyTypeId Sample.manifest
           eq_refl (or_introl eq_refl) (or_intror eq_refl)).
Defined.

(** ** Parameters that do not reach the URL *)

(** X11.  [authToken] and [language] never change the resolved URL, for any
    operation, and outside [get-children] neither does [top]: a page size
    given to another operation is dropped without an error. *)
Theorem delivery_url_ignores_credentials_and_stray_top (p : Parameters) :
  (forall token lang, resolveUrl (withCredentials token lang p) = resolveUrl p) /\
  (operation p <> "get-children" ->
   forall t token lang,
     resolveUrl (withTop t (withCredentials token lang p)) = resolveUrl p).
Proof.
  split.
  - intros token lang. reflexivity.
  - intros Hop t token lang. unfold resolveUrl, dispatch, commonQueryParams.
    cbn [withTop withCredentials cmsUrl operation contentReference contentGuid
         siteId contentUrl expand select top].
    destruct (String.eqb_spec (operation p) "get-children") as [Heq|_];
      [contradiction|reflexivity].
Qed.

Lemma delivery_url_ignores_credentials_and_stray_top_witness :
  resolveUrl (withCredentials "other" (Some "sv") Sample.childrenByGuid)
  = Normal "https://host.example/api/episerver/v3.0/content/abc-123/children?top=10" /\
  resolveUrl Scenario.allSitesSwedish
  = Normal "https://host.example/api/episerver/v3.0/site".
Proof.
  split.
  - rewrite (proj1 (delivery_url_ignores_credentials_and_stray_top
                      Sample.childrenByGuid) "other" (Some "sv")).
    reflexivity.
  - rewrite <- (proj2 (delivery_url_ignores_credentials_and_stray_top
                         Scenario.allSitesSwedish)
                  ltac:(discriminate) (Some (numberOfZ 10)) "t0ken" (Some "sv")).
    reflexivity.
Defined.

(** X12.  [get-content-by-reference] and [get-content-by-guid] build their URL in
    the same way: called with the same truthy identifier, base URL,
    [expand] and [select] they request the same URL. *)
Theorem reference_and_guid_share_the_url (p p' : Parameters) :
  operation p = "get-content-by-reference" ->
  operation p' = "get-content-by-guid" ->
  contentReference p = contentGuid p' ->
  truthy (contentReference p) = true ->
  cmsUrl p = cmsUrl p' -> expand p = expand p' -> select p = select p' ->
  exists fullUrl, resolveUrl p = Normal fullUrl /\ resolveUrl p' = Normal fullUrl.
Proof.
  intros Ho Ho' Hid Ht Hu He Hs. unfold resolveUrl, dispatch, commonQueryParams.
  rewrite Ho, Ho'. cbn [String.eqb Ascii.eqb Bool.eqb].
  rewrite <- Hid, Ht, Hu, He, Hs. cbn [negb]. eexists. split; reflexivity.
Qed.

Lemma reference_and_guid_share_the_url_witness :
  resolveUrl Scenario.byGuidFive
  = Normal "https://host.example/api/episerver/v3.0/content/5".
Proof.
  destruct (reference_and_guid_share_the_url Sample.byReference Scenario.byGuidFive
              eq_refl eq_refl eq_refl eq_refl eq_refl eq_refl eq_refl)
    as (fullUrl & Hp & Hp').
  injection Hp as <-. exact Hp'.
Defined.

Example twoCookies_last_wins :
  collectHeaders (Response.headers Sample.twoCookies) !! "set-cookie" = Some "b=2".
Proof. rewrite collectHeaders_lookup by discriminate. reflexivity. Qed.
